(** * copilot-gemini-bridge: session lifecycle and permission mediation

    A shallow embedding of [dist/index.js] of the copilot-gemini-bridge MCP
    server: the configuration constants, the permission callback installed on
    every Copilot session, [runBridge] (session creation, prompt send,
    result extraction, cleanup), the [CallToolRequestSchema] handler, and the
    singleton-client initialisation lock of [getClient].

    Conventions.
    - JavaScript values that reach the code untyped (tool arguments, the
      process environment) are values of [JsVal]; truthiness and [typeof]
      are written out.
    - Calls into the Copilot SDK are calls on records of behaviours
      ([Client], [Session]); every such call is recorded in a trace of
      [Effect]s, so that statements such as "destroy is invoked exactly once"
      are statements about the trace.
    - [log] only writes to stderr and is left out. *)

From Stdlib Require Import QArith.
From stdpp Require Import base option list strings gmap.

Local Open Scope string_scope.

(* [set_solver] clears hypotheses that are not always there. *)
#[local] Set Warnings "-clear-no-such-hyp".

(** ** JavaScript values *)

(** A JavaScript number, as far as the code looks at one: it is tested for
    truthiness and compared with [0].  A finite double is represented by the
    rational it denotes. *)
Inductive JsNum : Type :=
  | NaN
  | Infinity (negative : bool)
  | Finite (q : Q).

Inductive JsVal : Type :=
  | JUndefined
  | JNull
  | JBool (b : bool)
  | JNum (n : JsNum)
  | JStr (s : string)
  | JObject.            (* any object or array: truthy, typeof "object" *)

Definition str_truthy (s : string) : bool :=
  match s with
  | EmptyString => false
  | String _ _ => true
  end.

Definition num_truthy (n : JsNum) : bool :=
  match n with
  | NaN => false
  | Infinity _ => true
  | Finite q => negb (Qeq_bool q 0)
  end.

(** [n > 0] *)
Definition num_positive (n : JsNum) : bool :=
  match n with
  | NaN => false
  | Infinity negative => negb negative
  | Finite q => negb (Qle_bool q 0)
  end.

Definition truthy (v : JsVal) : bool :=
  match v with
  | JUndefined | JNull => false
  | JBool b => b
  | JNum n => num_truthy n
  | JStr s => str_truthy s
  | JObject => true
  end.

(** [process.env.X]: a string or [undefined]. *)
Definition env_val (e : option string) : JsVal :=
  match e with
  | Some s => JStr s
  | None => JUndefined
  end.

(** [Array.prototype.includes] on an array of strings. *)
Definition includes (l : list string) (s : string) : bool :=
  existsb (String.eqb s) l.

(** [e || d] for a string-or-undefined [e]. *)
Definition str_or (e : option string) (d : string) : string :=
  match e with
  | Some s => if str_truthy s then s else d
  | None => d
  end.

Definition nl : string := String (Ascii.ascii_of_nat 10) EmptyString.
Definition dquote : string := String (Ascii.ascii_of_nat 34) EmptyString.

(** [Array.prototype.join]. *)
Definition join (sep : string) (l : list string) : string := String.concat sep l.

(** ** Thrown values and outcomes of calls *)

(** What a [catch] clause sees: an [Error] with its message, or any other
    value, kept as its [String(...)] image. *)
Inductive Thrown : Type :=
  | ThrownError (message : string)
  | ThrownValue (text : string).

(** [error instanceof Error ? error.message : String(error)] *)
Definition error_message (e : Thrown) : string :=
  match e with
  | ThrownError message => message
  | ThrownValue text => text
  end.

Inductive Outcome (A : Type) : Type :=
  | Returned (a : A)
  | Threw (e : Thrown).
Arguments Returned {A} a.
Arguments Threw {A} e.

(** ** Configuration *)

Definition VALID_REASONING_EFFORTS : list string :=
  ["low"; "medium"; "high"; "xhigh"].

Definition parseReasoningEffort (value : JsVal) : string :=
  match value with
  | JStr s =>
      if truthy value && includes VALID_REASONING_EFFORTS s then s else "high"
  | _ => "high"
  end.

Definition VALID_GEMINI_MODELS : list string :=
  ["auto-gemini-3"; "auto-gemini-2.5"; "gemini-3-pro-preview";
   "gemini-3-flash-preview"; "gemini-2.5-pro"; "gemini-2.5-flash";
   "gemini-2.5-flash-lite"].

Definition WRITE_TOOLS : list string :=
  ["bash"; "write_bash"; "create"; "edit"; "task"].

(** Permission kinds that are always allowed (even in read-only mode). *)
Definition READ_ONLY_ALLOWED_KINDS : list string := ["mcp"; "read"; "url"].

(** The process environment and the two values the module computes from it
    with library code: the default path of gemini-mcp-tool
    ([resolve(homedir(), ...)]) and [Number(process.env.COPILOT_TIMEOUT)]. *)
Record ProcessEnv : Type := {
  env_GEMINI_MCP_PATH : option string;
  env_COPILOT_MODEL : option string;
  env_COPILOT_REASONING_EFFORT : option string;
  env_COPILOT_TIMEOUT_number : JsNum;
  env_GEMINI_TOOLS : option string;
  env_GEMINI_TOOLS_split : list string;   (* split(","), trim, filter(Boolean) *)
  env_GEMINI_MODEL : option string;
  env_COPILOT_WRITE_ACCESS : option string;
  home_gemini_mcp_path : string
}.

Section Config.
Variable env : ProcessEnv.

Definition GEMINI_MCP_PATH : string :=
  str_or (env_GEMINI_MCP_PATH env) (home_gemini_mcp_path env).

Definition DEFAULT_MODEL : string := str_or (env_COPILOT_MODEL env) "gpt-5.2".

Definition DEFAULT_REASONING_EFFORT : string :=
  parseReasoningEffort (env_val (env_COPILOT_REASONING_EFFORT env)).

Definition DEFAULT_TIMEOUT : JsNum :=
  if num_truthy (env_COPILOT_TIMEOUT_number env)
  then env_COPILOT_TIMEOUT_number env
  else Finite 300000.

Definition GEMINI_TOOL_ALLOWLIST : list string :=
  if truthy (env_val (env_GEMINI_TOOLS env))
  then env_GEMINI_TOOLS_split env
  else ["ask-gemini"; "brainstorm"; "fetch-chunk"].

Definition DEFAULT_GEMINI_MODEL : string :=
  str_or (env_GEMINI_MODEL env) "auto-gemini-3".

(** [process.env.COPILOT_WRITE_ACCESS !== "false"] *)
Definition DEFAULT_WRITE_ACCESS : bool :=
  match env_COPILOT_WRITE_ACCESS env with
  | Some s => negb (String.eqb s "false")
  | None => true
  end.
End Config.

(** ** The permission callback *)

Record PermissionRequest : Type := { kind : string }.

Record Rule : Type := { description : string }.

Inductive PermissionResult : Type :=
  | Approved                              (* { kind: "approved" } *)
  | DeniedByRules (rules : list Rule).    (* { kind: "denied-by-rules", rules } *)

Definition write_access_disabled : Rule :=
  {| description := "Write access is disabled - only read operations permitted" |}.

(** The [onPermissionRequest] closure of [runBridge]; [writeAccess] is the
    variable it captures. *)
Definition onPermissionRequest (writeAccess : bool) (request : PermissionRequest)
    : PermissionResult :=
  if includes READ_ONLY_ALLOWED_KINDS (kind request) then Approved
  else if writeAccess then Approved
  else DeniedByRules [write_access_disabled].

(** The kinds the policy table of the documentation names. *)
Definition RECOGNIZED_KINDS : list string :=
  ["mcp"; "read"; "url"; "shell"; "write"].

(** ** The Copilot SDK, as [runBridge] uses it *)

(** A session event: of an event only [type] and [data.content] are read. *)
Record SessionEvent : Type := {
  ev_type : string;
  ev_data_content : option string
}.

(** The payload of a ["tool.execution_start"] event. *)
Record ToolExecutionStart : Type := {
  toolName : string;
  mcpServerName : option string
}.

(** A session object.  [sendAndWait] yields the tool-execution starts the
    session emits while the call is pending, and how the call ends: it
    resolves with the final assistant message (or [undefined]), or rejects,
    which is also how the SDK reports that the timeout has passed. *)
Record Session : Type := {
  sessionId : string;
  sendAndWait : string -> JsNum ->
                list ToolExecutionStart * Outcome (option SessionEvent);
  getMessages : Outcome (list SessionEvent);
  destroy : Outcome unit
}.

Record McpLocalServerConfig : Type := {
  mcp_type : string;
  mcp_command : string;
  mcp_args : list string;
  mcp_tools : list string
}.

Record UserInputResponse : Type := {
  answer : string;
  wasFreeform : bool
}.

(** The argument of [client.createSession]. *)
Record SessionConfig : Type := {
  cfg_model : string;
  cfg_reasoningEffort : string;
  cfg_excludedTools : option (list string);
  cfg_systemMessage_mode : string;
  cfg_systemMessage_content : string;
  cfg_mcpServers_gemini : McpLocalServerConfig;
  cfg_onPermissionRequest : PermissionRequest -> PermissionResult;
  cfg_onUserInputRequest : UserInputResponse
}.

Record Client : Type := {
  createSession : SessionConfig -> Outcome Session
}.

(** The calls [runBridge] makes, in the order it makes them. *)
Inductive Effect : Type :=
  | EffGetClient
  | EffCreateSession (config : SessionConfig)
  | EffSendAndWait (prompt : string) (timeout : JsNum)
  | EffGetMessages
  | EffDestroy (id : string).

Definition is_destroy (e : Effect) : bool :=
  match e with
  | EffDestroy _ => true
  | _ => false
  end.

Definition destroy_calls (trace : list Effect) : nat :=
  length (filter (fun e => is_destroy e = true) trace).

(** ** A monad for the body of [runBridge]

    A computation reads and writes the local variable [session]
    ([let session;], assigned in the [try] block and read in [finally]),
    records the calls it makes and ends by returning or throwing. *)
Definition M (A : Type) : Type :=
  option Session -> list Effect * option Session * Outcome A.

Definition ret {A} (a : A) : M A := fun st => ([], st, Returned a).

Definition throw {A} (e : Thrown) : M A := fun st => ([], st, Threw e).

Definition bind {A B} (m : M A) (f : A -> M B) : M B := fun st =>
  match m st with
  | (t, st', Returned a) => let '(t', st'', r) := f a st' in ((t ++ t')%list, st'', r)
  | (t, st', Threw e) => (t, st', Threw e)
  end.

Notation "x <- m ;; k" := (bind m (fun x => k))
  (at level 100, m at next level, right associativity).
Notation "m ;;; k" := (bind m (fun _ => k))
  (at level 100, k at level 200, right associativity).

(** [await call]: the call is recorded and its outcome continues the
    computation. *)
Definition await {A} (eff : Effect) (o : Outcome A) : M A := fun st => ([eff], st, o).

Definition set_session (s : Session) : M unit := fun _ => ([], Some s, Returned tt).

Definition get_session : M (option Session) := fun st => ([], st, Returned st).

(** [try { m } catch (error) { h error }] *)
Definition try_catch {A} (m : M A) (h : Thrown -> M A) : M A := fun st =>
  match m st with
  | (t, st', Threw e) => let '(t', st'', r) := h e st' in ((t ++ t')%list, st'', r)
  | r => r
  end.

(** [try { m } finally { fin }]: the block [fin] always runs; if it throws,
    what it throws replaces the outcome of [m]. *)
Definition try_finally {A} (m : M A) (fin : M unit) : M A := fun st =>
  let '(t, st', r) := m st in
  let '(t', st'', r') := fin st' in
  ((t ++ t')%list, st'',
   match r' with
   | Threw e => Threw e
   | Returned _ => r
   end).

(** Running a computation from the start of the function body, where
    [session] is still [undefined]. *)
Definition run_M {A} (m : M A) : list Effect * Outcome A :=
  let '(t, _, r) := m None in (t, r).

(** ** [runBridge] *)

Definition buildSystemMessage (geminiModel : string) : string :=
  join nl [
    "You have access to Gemini (Google's AI) as an MCP tool called "
      +:+ dquote +:+ "gemini" +:+ dquote +:+ ".";
    "When processing requests, autonomously delegate to Gemini when it would be beneficial:";
    "";
    "DELEGATE TO GEMINI FOR:";
    "- Large context analysis (Gemini has massive context windows)";
    "- Web search and current information retrieval";
    "- Summarization of large codebases or documents";
    "- Complex reasoning tasks that benefit from a second perspective";
    "- Brainstorming and creative ideation";
    "";
    "HANDLE YOURSELF:";
    "- Simple questions with straightforward answers";
    "- Code generation where you have sufficient context";
    "- Tasks requiring your specific capabilities";
    "";
    "When delegating, use Gemini's " +:+ dquote +:+ "ask-gemini" +:+ dquote
      +:+ " tool with clear, detailed prompts.";
    "IMPORTANT: Always pass model: " +:+ dquote +:+ geminiModel +:+ dquote
      +:+ " when calling ask-gemini.";
    "Synthesize Gemini's responses with your own analysis before returning to the user.";
    "Always provide a unified, coherent response - don't just relay Gemini's output verbatim."
  ].

Record BridgeOptions : Type := {
  opt_prompt : string;
  opt_model : option string;
  opt_reasoningEffort : option string;
  opt_geminiModel : option string;
  opt_context : option string;
  opt_timeout : option JsNum;
  opt_writeAccess : option bool
}.

Definition NO_RESPONSE : string := "No response generated.".

(** [mcpServer ? `${mcpServer}:${toolName}` : toolName] *)
Definition tool_label (event : ToolExecutionStart) : string :=
  match mcpServerName event with
  | Some mcpServer =>
      if str_truthy mcpServer then mcpServer +:+ ":" +:+ toolName event
      else toolName event
  | None => toolName event
  end.

(** The ["tool.execution_start"] listener: [events.push(label)]. *)
Definition on_tool_execution_start (events : list string) (event : ToolExecutionStart)
    : list string :=
  (events ++ [tool_label event])%list.

(** [`\n\n[Tools used: ${events.join(", ")}]`] *)
Definition tools_used_annotation (events : list string) : string :=
  nl +:+ nl +:+ "[Tools used: " +:+ join ", " events +:+ "]".

(** [response?.data?.content] *)
Definition response_content (response : option SessionEvent) : option string :=
  match response with
  | Some r => ev_data_content r
  | None => None
  end.

Definition content_truthy (content : option string) : bool :=
  match content with
  | Some s => str_truthy s
  | None => false
  end.

Definition is_assistant_message (m : SessionEvent) : bool :=
  String.eqb (ev_type m) "assistant.message".

Section Bridge.
Variable env : ProcessEnv.

Definition effective_model (options : BridgeOptions) : string :=
  default (DEFAULT_MODEL env) (opt_model options).
Definition effective_reasoningEffort (options : BridgeOptions) : string :=
  default (DEFAULT_REASONING_EFFORT env) (opt_reasoningEffort options).
Definition effective_geminiModel (options : BridgeOptions) : string :=
  default (DEFAULT_GEMINI_MODEL env) (opt_geminiModel options).
Definition effective_timeout (options : BridgeOptions) : JsNum :=
  default (DEFAULT_TIMEOUT env) (opt_timeout options).
Definition effective_writeAccess (options : BridgeOptions) : bool :=
  default (DEFAULT_WRITE_ACCESS env) (opt_writeAccess options).

Definition fullPrompt (options : BridgeOptions) : string :=
  match opt_context options with
  | Some context =>
      if str_truthy context
      then opt_prompt options +:+ nl +:+ nl +:+ "--- Additional Context ---"
             +:+ nl +:+ context
      else opt_prompt options
  | None => opt_prompt options
  end.

Definition geminiMcpConfig : McpLocalServerConfig :=
  {| mcp_type := "local";
     mcp_command := "node";
     mcp_args := [GEMINI_MCP_PATH env];
     mcp_tools := GEMINI_TOOL_ALLOWLIST env |}.

(** The object passed to [client.createSession]. *)
Definition sessionConfig (options : BridgeOptions) : SessionConfig :=
  {| cfg_model := effective_model options;
     cfg_reasoningEffort := effective_reasoningEffort options;
     cfg_excludedTools :=
       if effective_writeAccess options then None else Some WRITE_TOOLS;
     cfg_systemMessage_mode := "append";
     cfg_systemMessage_content := buildSystemMessage (effective_geminiModel options);
     cfg_mcpServers_gemini := geminiMcpConfig;
     cfg_onPermissionRequest := onPermissionRequest (effective_writeAccess options);
     cfg_onUserInputRequest :=
       {| answer := "Proceed autonomously - do not ask for user input.";
          wasFreeform := true |} |}.

(** The part of the [try] block after [sendAndWait] has resolved. *)
Definition extract_result (session : Session) (events : list string)
    (response : option SessionEvent) : M string :=
  let content := response_content response in
  if negb (content_truthy content) then
    messages <- await EffGetMessages (getMessages session) ;;
    let assistantMessages :=
      filter (fun m => is_assistant_message m = true) messages in
    match last assistantMessages with
    | Some lastMsg =>
        if is_assistant_message lastMsg then
          ret (if content_truthy (ev_data_content lastMsg)
               then default "" (ev_data_content lastMsg)
               else NO_RESPONSE)
        else ret NO_RESPONSE
    | None => ret NO_RESPONSE
    end
  else
    let toolsUsed :=
      if (0 <? length events)%nat then tools_used_annotation events else "" in
    ret (default "" content +:+ toolsUsed).

Definition bridge_try (client : Client) (options : BridgeOptions) : M string :=
  session <- await (EffCreateSession (sessionConfig options))
                   (createSession client (sessionConfig options)) ;;
  set_session session ;;;
  let '(starts, sent) :=
    sendAndWait session (fullPrompt options) (effective_timeout options) in
  response <- await (EffSendAndWait (fullPrompt options) (effective_timeout options))
                    sent ;;
  let events := fold_left on_tool_execution_start starts [] in
  extract_result session events response.

Definition bridge_catch {A} (error : Thrown) : M A :=
  throw (ThrownError ("Copilot-Gemini bridge failed: " +:+ error_message error)).

Definition bridge_finally : M unit :=
  session <- get_session ;;
  match session with
  | Some s =>
      try_catch (await (EffDestroy (sessionId s)) (destroy s))
                (fun _ => ret tt)       (* Ignore cleanup errors *)
  | None => ret tt
  end.

(** [acquired] is how [await getClient()] ends. *)
Definition runBridge (acquired : Outcome Client) (options : BridgeOptions)
    : M string :=
  client <- await EffGetClient acquired ;;
  try_finally (try_catch (bridge_try client options) bridge_catch)
              bridge_finally.
End Bridge.

(** ** The [CallToolRequestSchema] handler *)

(** [request.params.arguments]: an object whose properties are read by name;
    a property that is not there reads as [undefined]. *)
Record ToolArguments : Type := {
  arg_prompt : JsVal;
  arg_model : JsVal;
  arg_reasoningEffort : JsVal;
  arg_geminiModel : JsVal;
  arg_context : JsVal;
  arg_timeout : JsVal;
  arg_writeAccess : JsVal
}.

(** [{}] *)
Definition no_arguments : ToolArguments :=
  {| arg_prompt := JUndefined; arg_model := JUndefined;
     arg_reasoningEffort := JUndefined; arg_geminiModel := JUndefined;
     arg_context := JUndefined; arg_timeout := JUndefined;
     arg_writeAccess := JUndefined |}.

Record CallToolRequest : Type := {
  params_name : string;
  params_arguments : option ToolArguments
}.

(** [{ content: [{ type: "text", text }], isError }] *)
Record CallToolResult : Type := {
  result_text : string;
  isError : bool
}.

Definition TOOL_NAME : string := "ask-copilot-with-gemini".

Definition PROMPT_REQUIRED : string :=
  "Error: prompt is required and must be a string".

(** [typeof v === "string"] *)
Definition typeof_string (v : JsVal) : bool :=
  match v with
  | JStr _ => true
  | _ => false
  end.

(** The string a value of type string is. *)
Definition string_value (v : JsVal) : string :=
  match v with
  | JStr s => s
  | _ => ""
  end.

(** [typeof v === "string" ? v : undefined] *)
Definition string_or_undefined (v : JsVal) : option string :=
  match v with
  | JStr s => Some s
  | _ => None
  end.

(** [geminiModel && VALID_GEMINI_MODELS.includes(geminiModel) ? geminiModel : undefined] *)
Definition validate_geminiModel (geminiModel : JsVal) : option string :=
  match geminiModel with
  | JStr s =>
      if truthy geminiModel && includes VALID_GEMINI_MODELS s then Some s else None
  | _ => None
  end.

(** [typeof timeout === "number" && timeout > 0 ? timeout : undefined] *)
Definition validate_timeout (timeout : JsVal) : option JsNum :=
  match timeout with
  | JNum n => if num_positive n then Some n else None
  | _ => None
  end.

(** [typeof writeAccess === "boolean" ? writeAccess : undefined] *)
Definition boolean_or_undefined (v : JsVal) : option bool :=
  match v with
  | JBool b => Some b
  | _ => None
  end.

Section Handler.
Variable env : ProcessEnv.

(** The options object the handler passes to [runBridge]. *)
Definition bridge_options (prompt : string) (args : ToolArguments) : BridgeOptions :=
  let effort := parseReasoningEffort (arg_reasoningEffort args) in
  {| opt_prompt := prompt;
     opt_model := string_or_undefined (arg_model args);
     opt_reasoningEffort := Some effort;
     opt_geminiModel := validate_geminiModel (arg_geminiModel args);
     opt_context := string_or_undefined (arg_context args);
     opt_timeout := validate_timeout (arg_timeout args);
     opt_writeAccess := boolean_or_undefined (arg_writeAccess args) |}.

(** The handler.  It never throws: what [runBridge] throws is turned into
    an error result. *)
Definition handle_call_tool (acquired : Outcome Client) (request : CallToolRequest)
    : list Effect * CallToolResult :=
  if negb (String.eqb (params_name request) TOOL_NAME) then
    ([], {| result_text := "Unknown tool: " +:+ params_name request;
            isError := true |})
  else
    let args := default no_arguments (params_arguments request) in
    let prompt := arg_prompt args in
    if negb (truthy prompt) || negb (typeof_string prompt) then
      ([], {| result_text := PROMPT_REQUIRED; isError := true |})
    else
      match run_M (runBridge env acquired
                     (bridge_options (string_value prompt) args)) with
      | (trace, Returned result) =>
          (trace, {| result_text := result; isError := false |})
      | (trace, Threw error) =>
          (trace, {| result_text := "Error: " +:+ error_message error;
                     isError := true |})
      end.
End Handler.

(** ** The annotation the specification describes

    The labels of a log, each once, in the order of their first occurrence. *)
Fixpoint distinct_from (seen : list string) (labels : list string) : list string :=
  match labels with
  | [] => []
  | l :: rest =>
      if includes seen l then distinct_from seen rest
      else l :: distinct_from (l :: seen) rest
  end.

Definition distinct_first_seen (labels : list string) : list string :=
  distinct_from [] labels.

(** ** The singleton client and its init lock

    [getClient] is an async function: between two [await]s its code runs
    without interruption, and the continuations of several pending calls run
    in an order the function does not control.  The module state
    ([singletonClient], [clientInitPromise]), the promises made so far and
    the pending calls form the state of a transition system; each transition
    is one uninterrupted run of code.

    A client object is named by the number of the attempt that made it
    ([new CopilotClient] in the [p]-th init promise). *)

Inductive PromiseState : Type :=
  | Pending
  | Fulfilled (client : nat)
  | Rejected (error : Thrown).

(** Where a call of [getClient] stands. *)
Inductive CallerState : Type :=
  | AwaitingInTry (p : nat)     (* at [return await clientInitPromise], inside [try] *)
  | AwaitingReturned (p : nat)  (* has returned the shared [clientInitPromise] *)
  | Finished (o : Outcome nat). (* the caller has its client, or its error *)

Record Runtime : Type := {
  singletonClient : option nat;
  clientInitPromise : option nat;
  promises : list PromiseState;      (* the init promises, by number *)
  start_calls : nat;                 (* how often [client.start()] was called *)
  callers : gmap nat CallerState
}.

Definition uninitialized : Runtime :=
  {| singletonClient := None; clientInitPromise := None; promises := [];
     start_calls := 0; callers := ∅ |}.

Definition set_caller (i : nat) (c : CallerState) (rt : Runtime) : Runtime :=
  {| singletonClient := singletonClient rt;
     clientInitPromise := clientInitPromise rt;
     promises := promises rt;
     start_calls := start_calls rt;
     callers := <[i := c]> (callers rt) |}.

(** Caller [i] calls [getClient()]: the code up to the first [await].  When
    no client and no init promise is there, the async arrow function is
    called, which runs up to [await client.start()]: a client is made and
    its [start] is called. *)
Definition getClient_call (i : nat) (rt : Runtime) : option Runtime :=
  match callers rt !! i with
  | Some _ => None
  | None =>
      match singletonClient rt with
      | Some client => Some (set_caller i (Finished (Returned client)) rt)
      | None =>
          match clientInitPromise rt with
          | Some p => Some (set_caller i (AwaitingReturned p) rt)
          | None =>
              let p := length (promises rt) in
              Some {| singletonClient := None;
                      clientInitPromise := Some p;
                      promises := (promises rt ++ [Pending])%list;
                      start_calls := S (start_calls rt);
                      callers := <[i := AwaitingInTry p]> (callers rt) |}
          end
      end
  end.

(** [client.start()] of attempt [p] ends: the rest of the async arrow
    function runs.  On success it sets [singletonClient] and returns the
    client; on failure the init promise is rejected. *)
Definition start_settles (p : nat) (o : Outcome unit) (rt : Runtime) : option Runtime :=
  match promises rt !! p with
  | Some Pending =>
      match o with
      | Returned _ =>
          Some {| singletonClient := Some p;
                  clientInitPromise := clientInitPromise rt;
                  promises := <[p := Fulfilled p]> (promises rt);
                  start_calls := start_calls rt;
                  callers := callers rt |}
      | Threw error =>
          Some {| singletonClient := singletonClient rt;
                  clientInitPromise := clientInitPromise rt;
                  promises := <[p := Rejected error]> (promises rt);
                  start_calls := start_calls rt;
                  callers := callers rt |}
      end
  | _ => None
  end.

(** The continuation of caller [i] runs, once the promise it waits for is
    settled.  Only the call suspended inside [try] has the [catch] clause
    that clears [clientInitPromise]. *)
Definition getClient_resume (i : nat) (rt : Runtime) : option Runtime :=
  match callers rt !! i with
  | Some (AwaitingInTry p) =>
      match promises rt !! p with
      | Some (Fulfilled client) => Some (set_caller i (Finished (Returned client)) rt)
      | Some (Rejected error) =>
          Some {| singletonClient := singletonClient rt;
                  clientInitPromise := None;        (* Allow retry on failure *)
                  promises := promises rt;
                  start_calls := start_calls rt;
                  callers := <[i := Finished (Threw error)]> (callers rt) |}
      | _ => None
      end
  | Some (AwaitingReturned p) =>
      match promises rt !! p with
      | Some (Fulfilled client) => Some (set_caller i (Finished (Returned client)) rt)
      | Some (Rejected error) => Some (set_caller i (Finished (Threw error)) rt)
      | _ => None
      end
  | _ => None
  end.

Inductive Action : Type :=
  | Call (i : nat)
  | Settle (p : nat) (o : Outcome unit)
  | Resume (i : nat).

Definition step (rt : Runtime) (a : Action) : option Runtime :=
  match a with
  | Call i => getClient_call i rt
  | Settle p o => start_settles p o rt
  | Resume i => getClient_resume i rt
  end.

(** A schedule is run from left to right; [None] when one of its actions
    cannot happen in the state it meets. *)
Fixpoint run (rt : Runtime) (schedule : list Action) : option Runtime :=
  match schedule with
  | [] => Some rt
  | a :: rest =>
      match step rt a with
      | Some rt' => run rt' rest
      | None => None
      end
  end.

(** What every caller of attempt [0] is to observe when [start] ends with [o]. *)
Definition observed (o : Outcome unit) : Outcome nat :=
  match o with
  | Returned _ => Returned 0%nat
  | Threw error => Threw error
  end.

(** [N] callers call while nothing is initialised, then [start] ends, then
    the callers' continuations run in the order [resumes]. *)
Definition concurrent_schedule (calls resumes : list nat) (o : Outcome unit)
    : list Action :=
  ((Call <$> calls) ++ [Settle 0 o] ++ (Resume <$> resumes))%list.

(** ** The claims of the specification, as propositions

    Two sentences of the specification are stated here as they are written,
    to be compared with what the code does. *)

(** "An unrecognized kind must be treated as the most restrictive case
    (deny)": for every kind outside the policy table and every value of the
    write-access flag the callback denies. *)
Definition unrecognized_kinds_denied : Prop :=
  ∀ (writeAccess : bool) (k : string),
    k ∉ RECOGNIZED_KINDS →
    ∃ rules, onPermissionRequest writeAccess {| kind := k |} = DeniedByRules rules.

(** An environment in which nothing is set. *)
Definition default_env : ProcessEnv :=
  {| env_GEMINI_MCP_PATH := None;
     env_COPILOT_MODEL := None;
     env_COPILOT_REASONING_EFFORT := None;
     env_COPILOT_TIMEOUT_number := NaN;
     env_GEMINI_TOOLS := None;
     env_GEMINI_TOOLS_split := [];
     env_GEMINI_MODEL := None;
     env_COPILOT_WRITE_ACCESS := None;
     home_gemini_mcp_path := "/home/user/mcp-servers/gemini-mcp-tool/dist/index.js" |}.

(** The same, with [COPILOT_REASONING_EFFORT=low]. *)
Definition low_effort_env : ProcessEnv :=
  {| env_GEMINI_MCP_PATH := None;
     env_COPILOT_MODEL := None;
     env_COPILOT_REASONING_EFFORT := Some "low";
     env_COPILOT_TIMEOUT_number := NaN;
     env_GEMINI_TOOLS := None;
     env_GEMINI_TOOLS_split := [];
     env_GEMINI_MODEL := None;
     env_COPILOT_WRITE_ACCESS := None;
     home_gemini_mcp_path := "/home/user/mcp-servers/gemini-mcp-tool/dist/index.js" |}.

(** Arguments that hold a prompt and nothing else. *)
Definition prompt_only (prompt : string) : ToolArguments :=
  {| arg_prompt := JStr prompt; arg_model := JUndefined;
     arg_reasoningEffort := JUndefined; arg_geminiModel := JUndefined;
     arg_context := JUndefined; arg_timeout := JUndefined;
     arg_writeAccess := JUndefined |}.

(** "The trailing annotation lists the distinct tool labels, deduplicated, in
    first-seen order": whenever a session emits at least one tool-execution
    start and the final message has content, the result is the content
    followed by the annotation of the distinct labels. *)
Definition annotation_lists_distinct_labels : Prop :=
  ∀ (env : ProcessEnv) (client : Client) (options : BridgeOptions)
    (session : Session) (starts : list ToolExecutionStart)
    (response : option SessionEvent),
    createSession client (sessionConfig env options) = Returned session →
    sendAndWait session (fullPrompt options) (effective_timeout env options)
      = (starts, Returned response) →
    content_truthy (response_content response) = true →
    starts ≠ [] →
    (run_M (runBridge env (Returned client) options)).2
      = Returned (default "" (response_content response)
                  +:+ tools_used_annotation (distinct_first_seen (tool_label <$> starts))).

(** "If absent, the most recent assistant-authored message is used; if no
    assistant message exists, the placeholder is returned." *)
Definition extraction_uses_last_assistant_message : Prop :=
  ∀ (env : ProcessEnv) (client : Client) (options : BridgeOptions)
    (session : Session) (starts : list ToolExecutionStart)
    (response : option SessionEvent) (messages : list SessionEvent),
    createSession client (sessionConfig env options) = Returned session →
    sendAndWait session (fullPrompt options) (effective_timeout env options)
      = (starts, Returned response) →
    content_truthy (response_content response) = false →
    getMessages session = Returned messages →
    (run_M (runBridge env (Returned client) options)).2
      = Returned
          match last (filter (fun m => is_assistant_message m = true) messages) with
          | Some lastMsg => default "" (ev_data_content lastMsg)
          | None => NO_RESPONSE
          end.

(** What the fallback path returns for a message history. *)
Definition fallback_text (messages : list SessionEvent) : string :=
  match last (filter (fun m => is_assistant_message m = true) messages) with
  | Some lastMsg =>
      if content_truthy (ev_data_content lastMsg)
      then default "" (ev_data_content lastMsg)
      else NO_RESPONSE
  | None => NO_RESPONSE
  end.

(** Sample sessions and clients, to run the code on. *)
Definition assistant_message (content : string) : SessionEvent :=
  {| ev_type := "assistant.message"; ev_data_content := Some content |}.

Definition tool_start (name : string) : ToolExecutionStart :=
  {| toolName := name; mcpServerName := None |}.

Definition sample_session (starts : list ToolExecutionStart)
    (sent : Outcome (option SessionEvent)) (messages : list SessionEvent)
    (destroyed : Outcome unit) : Session :=
  {| sessionId := "session-1";
     sendAndWait := fun _ _ => (starts, sent);
     getMessages := Returned messages;
     destroy := destroyed |}.

Definition client_of (session : Session) : Client :=
  {| createSession := fun _ => Returned session |}.

Definition prompt_options (prompt : string) : BridgeOptions :=
  {| opt_prompt := prompt; opt_model := None; opt_reasoningEffort := None;
     opt_geminiModel := None; opt_context := None; opt_timeout := None;
     opt_writeAccess := None |}.

(** The configurations [createSession] was called with, in a trace. *)
Definition created_config (e : Effect) : option SessionConfig :=
  match e with
  | EffCreateSession config => Some config
  | _ => None
  end.

Definition created_configs (trace : list Effect) : list SessionConfig :=
  omap created_config trace.

(** Scenario D of the specification: [fetch], [fetch] again, then [search],
    and a final message with content. *)
Definition fetch_fetch_search : list ToolExecutionStart :=
  [tool_start "fetch"; tool_start "fetch"; tool_start "search"].

Definition scenario_D_session : Session :=
  sample_session fetch_fetch_search (Returned (Some (assistant_message "ok")))
    [] (Returned tt).

(** No content in the final message, and a history whose last assistant
    message has empty content (as a message that only requests tools has). *)
Definition empty_last_message_session : Session :=
  sample_session [] (Returned None)
    [assistant_message "partial answer"; assistant_message ""] (Returned tt).

(** Scenario B of the specification: [sendAndWait] times out; here
    [destroy] fails as well. *)
Definition scenario_B_session : Session :=
  sample_session [tool_start "fetch"]
    (Threw (ThrownError "Timeout after 5ms waiting for session.idle"))
    [] (Threw (ThrownError "Session not found")).

(** Scenario C of the specification: no content in the final message, one
    assistant message ["done"] in the history; a tool was used. *)
Definition scenario_C_session : Session :=
  sample_session [tool_start "fetch"] (Returned None)
    [assistant_message "done"] (Returned tt).

(** A request for effort [xhigh] on model [gpt-5.2]. *)
Definition xhigh_on_gpt_5_2 : ToolArguments :=
  {| arg_prompt := JStr "p"; arg_model := JStr "gpt-5.2";
     arg_reasoningEffort := JStr "xhigh"; arg_geminiModel := JUndefined;
     arg_context := JUndefined; arg_timeout := JUndefined;
     arg_writeAccess := JUndefined |}.

Definition call_tool (args : ToolArguments) : CallToolRequest :=
  {| params_name := TOOL_NAME; params_arguments := Some args |}.

(** "An effort level unsupported by the chosen model is clamped to a
    supported level, never rejected."  The code holds no set of levels per
    model, so the set is taken as given: whatever levels [supported] assigns
    to the models, a requested level outside the chosen model's (non-empty)
    set is to reach [createSession] as a level of that set.  (That the level
    be the nearest one is not even asked here.) *)
Definition effort_clamped_to_supported : Prop :=
  ∀ (supported : string → list string) (env : ProcessEnv) (client : Client)
    (args : ToolArguments) (prompt level : string),
    arg_prompt args = JStr prompt →
    prompt ≠ "" →
    arg_reasoningEffort args = JStr level →
    supported (effective_model env (bridge_options prompt args)) ≠ [] →
    level ∉ supported (effective_model env (bridge_options prompt args)) →
    Forall (fun config =>
              cfg_reasoningEffort config
                ∈ supported (effective_model env (bridge_options prompt args)))
      (created_configs
         (handle_call_tool env (Returned client) (call_tool args)).1).

(** A model family that takes [low], [medium] and [high] only. *)
Definition up_to_high (model : string) : list string :=
  ["low"; "medium"; "high"].

(** A request with a prompt and a context. *)
Definition prompt_with_context (prompt : string) (context : JsVal) : ToolArguments :=
  {| arg_prompt := JStr prompt; arg_model := JUndefined;
     arg_reasoningEffort := JUndefined; arg_geminiModel := JUndefined;
     arg_context := context; arg_timeout := JUndefined;
     arg_writeAccess := JUndefined |}.

(** The states of the transition system between the first call and the
    end of [start]: attempt [0] is pending, caller [first] waits inside
    [try], the callers in [joined] wait on the shared promise. *)
Definition in_flight (first : nat) (joined : gset nat) (rt : Runtime) : Prop :=
  singletonClient rt = None
  ∧ clientInitPromise rt = Some 0%nat
  ∧ promises rt = [Pending]
  ∧ start_calls rt = 1%nat
  ∧ ∀ i : nat, callers rt !! i =
      if decide (i = first) then Some (AwaitingInTry 0)
      else if decide (i ∈ joined) then Some (AwaitingReturned 0)
      else None.

Definition settled_promise (o : Outcome unit) : PromiseState :=
  match o with
  | Returned _ => Fulfilled 0
  | Threw error => Rejected error
  end.

(** The states after [start] has ended with [o]: the callers in [resumed]
    have their outcome, the others of [all] still wait. *)
Definition settled (o : Outcome unit) (first : nat) (all resumed : gset nat)
    (rt : Runtime) : Prop :=
  promises rt = [settled_promise o]
  ∧ start_calls rt = 1%nat
  ∧ singletonClient rt = match o with Returned _ => Some 0%nat | Threw _ => None end
  ∧ clientInitPromise rt =
      match o with
      | Returned _ => Some 0%nat
      | Threw _ => if decide (first ∈ resumed) then None else Some 0%nat
      end
  ∧ ∀ i : nat, callers rt !! i =
      if decide (i ∈ resumed) then Some (Finished (observed o))
      else if decide (i = first) then Some (AwaitingInTry 0)
      else if decide (i ∈ all) then Some (AwaitingReturned 0)
      else None.

(** A concurrent run of three callers in which [start] fails. *)
Definition start_failure : Outcome unit :=
  Threw (ThrownError "Copilot CLI not found").

(** ** Further definitions: traces, [shutdownClient], the lock invariant *)

(** The arguments [sendAndWait] was called with, in a trace. *)
Definition sent_call (e : Effect) : option (string * JsNum) :=
  match e with
  | EffSendAndWait prompt timeout => Some (prompt, timeout)
  | _ => None
  end.

Definition sent_calls (trace : list Effect) : list (string * JsNum) :=
  omap sent_call trace.

Definition is_getMessages (e : Effect) : bool :=
  match e with
  | EffGetMessages => true
  | _ => false
  end.

Definition getMessages_calls (trace : list Effect) : nat :=
  length (filter (fun e => is_getMessages e = true) trace).

(** The calls [shutdownClient] makes on a client. *)
Inductive ShutdownCall : Type :=
  | CallStop (client : nat)
  | CallForceStop (client : nat).

(** [try { await call } catch { handler }], for calls that return nothing. *)
Definition awaited (call : ShutdownCall) (o : Outcome unit)
    : list ShutdownCall * Outcome unit :=
  ([call], o).

Definition or_catch (m : list ShutdownCall * Outcome unit)
    (handler : list ShutdownCall * Outcome unit)
    : list ShutdownCall * Outcome unit :=
  match m with
  | (t, Threw _) => let '(t', r) := handler in ((t ++ t')%list, r)
  | ok => ok
  end.

(** [shutdownClient]: [stop] and [forceStop] are how [client.stop()] and
    [client.forceStop()] end.  The module variables are cleared before the
    first [await]; the rest of the function does not touch them, so the
    whole call is one transition of the module state, with the calls it
    makes on the client and the way it ends. *)
Definition shutdownClient (stop forceStop : Outcome unit) (rt : Runtime)
    : Runtime * (list ShutdownCall * Outcome unit) :=
  match singletonClient rt with
  | None => (rt, ([], Returned tt))
  | Some client =>
      ({| singletonClient := None;
          clientInitPromise := None;
          promises := promises rt;
          start_calls := start_calls rt;
          callers := callers rt |},
       or_catch (awaited (CallStop client) stop)
         (or_catch (awaited (CallForceStop client) forceStop)
            ([], Returned tt)))     (* Last resort *)
  end.

(** What holds in every state a schedule of [getClient] calls can reach. *)
Definition lock_invariant (rt : Runtime) : Prop :=
  start_calls rt = length (promises rt)
  ∧ (∀ p, promises rt !! p = Some Pending →
       clientInitPromise rt = Some p ∧ singletonClient rt = None)
  ∧ (∀ p c, promises rt !! p = Some (Fulfilled c) →
       c = p ∧ singletonClient rt = Some p)
  ∧ (∀ c, singletonClient rt = Some c → promises rt !! c = Some (Fulfilled c))
  ∧ (∀ p, clientInitPromise rt = Some p → (p < length (promises rt))%nat)
  ∧ (∀ i p, callers rt !! i = Some (AwaitingInTry p) →
       clientInitPromise rt = Some p)
  ∧ (∀ i j p q, callers rt !! i = Some (AwaitingInTry p) →
       callers rt !! j = Some (AwaitingInTry q) → i = j)
  ∧ (∀ i p, callers rt !! i = Some (AwaitingReturned p) →
       (p < length (promises rt))%nat)
  ∧ (∀ i c, callers rt !! i = Some (Finished (Returned c)) →
       singletonClient rt = Some c).

(** A schedule in which a first attempt fails and a second one succeeds:
    caller 0 starts attempt 0 and caller 1 joins it; [start] fails; both
    resume; caller 2 starts attempt 1 and caller 3 joins it; [start]
    succeeds; both resume; caller 4 calls when the client is there. *)
Definition retry_schedule : list Action :=
  [Call 0; Call 1; Settle 0 start_failure; Resume 1; Resume 0;
   Call 2; Call 3; Settle 1 (Returned tt); Resume 3; Resume 2; Call 4]%nat.

(** A request for the bridge tool with a prompt and a timeout. *)
Definition prompt_with_timeout (prompt : string) (timeout : JsVal) : ToolArguments :=
  {| arg_prompt := JStr prompt; arg_model := JUndefined;
     arg_reasoningEffort := JUndefined; arg_geminiModel := JUndefined;
     arg_context := JUndefined; arg_timeout := timeout;
     arg_writeAccess := JUndefined |}.

(** A session whose creation fails. *)
Definition failing_client (error : Thrown) : Client :=
  {| createSession := fun _ => Threw error |}.

(** ** Policy evaluator *)

Lemma includes_elem_of (l : list string) (s : string) :
  includes l s = true ↔ s ∈ l.
Proof.
  unfold includes. rewrite existsb_exists. split.
  - intros (x & Hin & Heq). apply String.eqb_eq in Heq. subst x.
    by apply list_elem_of_In.
  - intros Hin. exists s. split; [by apply list_elem_of_In | apply String.eqb_refl].
Qed.

Lemma includes_not_elem_of (l : list string) (s : string) :
  s ∉ l → includes l s = false.
Proof.
  intros Hnot. destruct (includes l s) eqn:E; [|done].
  by apply includes_elem_of in E.
Qed.

Lemma READ_ONLY_ALLOWED_recognized (k : string) :
  k ∈ READ_ONLY_ALLOWED_KINDS → k ∈ RECOGNIZED_KINDS.
Proof.
  unfold READ_ONLY_ALLOWED_KINDS, RECOGNIZED_KINDS.
  rewrite !elem_of_cons. tauto.
Qed.

Lemma exec_not_recognized : "exec" ∉ RECOGNIZED_KINDS.
Proof. intros H. apply includes_elem_of in H. discriminate H. Qed.

(** C1. The permission callback of the session [runBridge] creates is the
    policy table: kinds mcp, read and url are approved whatever the
    write-access flag is; kinds shell and write are approved when the flag
    is true and otherwise denied by the rule whose description says that
    write access is disabled. *)
Theorem permission_callback_policy_table (env : ProcessEnv) (options : BridgeOptions) :
  let callback := cfg_onPermissionRequest (sessionConfig env options) in
  let writeAccess := effective_writeAccess env options in
  callback {| kind := "mcp" |} = Approved
  ∧ callback {| kind := "read" |} = Approved
  ∧ callback {| kind := "url" |} = Approved
  ∧ callback {| kind := "shell" |}
      = (if writeAccess then Approved else DeniedByRules [write_access_disabled])
  ∧ callback {| kind := "write" |}
      = (if writeAccess then Approved else DeniedByRules [write_access_disabled])
  ∧ (callback {| kind := "shell" |} = Approved ↔ writeAccess = true)
  ∧ (callback {| kind := "write" |} = Approved ↔ writeAccess = true)
  ∧ description write_access_disabled
      = "Write access is disabled - only read operations permitted".
Proof.
  cbn zeta. unfold sessionConfig; cbn [cfg_onPermissionRequest].
  destruct (effective_writeAccess env options);
    repeat split; try reflexivity; try discriminate.
Qed.

(** C2, as the specification has it, fails: with write access enabled, a
    request of a kind outside the table (here ["exec"]) is approved. *)
Lemma unrecognized_kind_approved_with_write_access :
  ¬ unrecognized_kinds_denied.
Proof.
  intros H. destruct (H true "exec" exec_not_recognized) as [rules Hr].
  discriminate Hr.
Qed.

(** C2, amended. A request of a kind outside the table is decided by the
    write-access flag alone: denied, by the write-access rule, when the flag
    is false, and approved when it is true. *)
Theorem unrecognized_kind_follows_write_access (writeAccess : bool) (k : string) :
  k ∉ RECOGNIZED_KINDS →
  onPermissionRequest writeAccess {| kind := k |}
    = if writeAccess then Approved else DeniedByRules [write_access_disabled].
Proof.
  intros Hk. unfold onPermissionRequest; cbn [kind].
  rewrite includes_not_elem_of; [done|].
  intros Hin. by apply Hk, READ_ONLY_ALLOWED_recognized.
Qed.

Lemma unrecognized_kind_follows_write_access_witness :
  ("exec" ∉ RECOGNIZED_KINDS)
  ∧ onPermissionRequest false {| kind := "exec" |} = DeniedByRules [write_access_disabled]
  ∧ onPermissionRequest true {| kind := "exec" |} = Approved.
Proof.
  split; [exact exec_not_recognized|]. split.
  - exact (unrecognized_kind_follows_write_access false "exec" exec_not_recognized).
  - exact (unrecognized_kind_follows_write_access true "exec" exec_not_recognized).
Defined.

(** ** [runBridge]: cleanup and result extraction *)

Lemma fold_on_tool_execution_start (starts : list ToolExecutionStart)
    (events : list string) :
  fold_left on_tool_execution_start starts events
    = (events ++ (tool_label <$> starts))%list.
Proof.
  revert events. induction starts as [|e starts IH]; intros events; cbn.
  - by rewrite app_nil_r.
  - rewrite IH. unfold on_tool_execution_start. by rewrite <- app_assoc.
Qed.

(** Unfolds [runBridge] and the combinators of [M]. *)
Ltac unfold_bridge :=
  unfold run_M, runBridge, bridge_try, bridge_catch, bridge_finally,
    extract_result, try_finally, try_catch, bind, await, set_session,
    get_session, ret, throw.

Section SessionCreated.
Variable env : ProcessEnv.
Variable client : Client.
Variable options : BridgeOptions.
Variable session : Session.
Hypothesis created :
  createSession client (sessionConfig env options) = Returned session.

(** C4. Once [createSession] has returned a session, [runBridge] calls
    [session.destroy()] exactly once, as its last call, whether the [try]
    block returned or threw (a timeout is [sendAndWait] throwing); and what
    [runBridge] returns or throws is what the [try]/[catch] part returned
    or threw, whatever [destroy] does - also when [destroy] throws. *)
Theorem session_destroyed_exactly_once :
  let body := run_M (try_catch (bridge_try env client options) bridge_catch) in
  let whole := run_M (runBridge env (Returned client) options) in
  whole.1 = (EffGetClient :: body.1 ++ [EffDestroy (sessionId session)])%list
  ∧ destroy_calls body.1 = 0%nat
  ∧ destroy_calls whole.1 = 1%nat
  ∧ whole.2 = body.2.
Proof.
  cbn zeta. unfold_bridge. rewrite created. cbn.
  destruct (sendAndWait session (fullPrompt options)
              (effective_timeout env options)) as [starts [response|e]]; cbn.
  - destruct (content_truthy (response_content response)); cbn.
    + by destruct (destroy session).
    + destruct (getMessages session) as [messages|e]; cbn.
      * destruct (last _) as [lastMsg|]; [destruct (is_assistant_message lastMsg)|];
          by destruct (destroy session).
      * by destruct (destroy session).
  - by destruct (destroy session).
Qed.

Section PromptAnswered.
Variable starts : list ToolExecutionStart.
Variable response : option SessionEvent.
Hypothesis answered :
  sendAndWait session (fullPrompt options) (effective_timeout env options)
    = (starts, Returned response).

(** C3, amended. When the final message has content and at least one
    tool execution has started, the result is the content followed by
    the annotation that lists the label of every tool-execution start,
    in the order of the starts, a label as often as it started. *)
Theorem tools_used_lists_every_start :
  content_truthy (response_content response) = true →
  starts ≠ [] →
  (run_M (runBridge env (Returned client) options)).2
    = Returned (default "" (response_content response)
                +:+ nl +:+ nl +:+ "[Tools used: "
                +:+ join ", " (tool_label <$> starts) +:+ "]").
Proof.
  intros Hcontent Hstarts. unfold_bridge. rewrite created. cbn.
  rewrite answered. cbn. rewrite Hcontent. cbn.
  rewrite fold_on_tool_execution_start. cbn.
  destruct starts as [|e starts']; [done|]. cbn.
  by destruct (destroy session).
Qed.

(** C7, amended. With content in the final message the result is that
    content (followed by the tools annotation when a tool was used).
    Without, the message history is read: the result is the content of
    its last assistant message when that content is not empty, and the
    placeholder when it is empty or there is no assistant message. *)
Theorem result_extraction_chain (messages : list SessionEvent) :
  (content_truthy (response_content response) = false →
   getMessages session = Returned messages) →
  (run_M (runBridge env (Returned client) options)).2
    = Returned
        (if content_truthy (response_content response)
         then default "" (response_content response)
              +:+ (if bool_decide (starts = []) then ""
                   else tools_used_annotation (tool_label <$> starts))
         else match last (filter (fun m => is_assistant_message m = true)
                                 messages) with
              | Some lastMsg =>
                  if content_truthy (ev_data_content lastMsg)
                  then default "" (ev_data_content lastMsg)
                  else NO_RESPONSE
              | None => NO_RESPONSE
              end).
Proof.
  intros Hmessages. unfold_bridge. rewrite created. cbn.
  rewrite answered. cbn.
  destruct (content_truthy (response_content response)) eqn:Hcontent; cbn.
  - rewrite fold_on_tool_execution_start. cbn.
    destruct starts as [|e starts']; cbn; by destruct (destroy session).
  - rewrite (Hmessages eq_refl). cbn.
    destruct (last _) as [lastMsg|] eqn:Hlast; cbn.
    + assert (Ha : is_assistant_message lastMsg = true).
      { apply last_Some_elem_of in Hlast.
        by apply list_elem_of_filter in Hlast as [Ha _]. }
      rewrite Ha. cbn. by destruct (destroy session).
    + by destruct (destroy session).
Qed.

(** C10. When the final message has no content, what [runBridge]
    returns is read from the message history alone: the tool-execution
    starts of the session, however many, leave no annotation in it.  (When
    reading the history fails, the failure is thrown, wrapped.) *)
Theorem fallback_result_has_no_annotation :
  content_truthy (response_content response) = false →
  (run_M (runBridge env (Returned client) options)).2
    = match getMessages session with
      | Returned messages => Returned (fallback_text messages)
      | Threw error =>
          Threw (ThrownError ("Copilot-Gemini bridge failed: "
                              +:+ error_message error))
      end.
Proof.
  intros Hcontent. unfold_bridge. rewrite created. cbn.
  rewrite answered. cbn. rewrite Hcontent. cbn.
  destruct (getMessages session) as [messages|e]; cbn.
  - unfold fallback_text.
    destruct (last _) as [lastMsg|] eqn:Hlast; cbn.
    + assert (Ha : is_assistant_message lastMsg = true).
      { apply last_Some_elem_of in Hlast.
        by apply list_elem_of_filter in Hlast as [Ha _]. }
      rewrite Ha. cbn. by destruct (destroy session).
    + by destruct (destroy session).
  - by destruct (destroy session).
Qed.
End PromptAnswered.
End SessionCreated.

Lemma session_destroyed_exactly_once_witness :
  let whole := run_M (runBridge default_env (Returned (client_of scenario_B_session))
                        (prompt_options "summarize X")) in
  destroy_calls whole.1 = 1%nat
  ∧ last whole.1 = Some (EffDestroy "session-1")
  ∧ whole.2 = Threw (ThrownError
        "Copilot-Gemini bridge failed: Timeout after 5ms waiting for session.idle").
Proof.
  cbn zeta.
  destruct (session_destroyed_exactly_once default_env
              (client_of scenario_B_session) (prompt_options "summarize X")
              scenario_B_session eq_refl) as (Htrace & _ & Hcount & Hout).
  split; [exact Hcount|]. split.
  - rewrite Htrace. reflexivity.
  - rewrite Hout. reflexivity.
Defined.

(** C3, as the specification has it, fails: on scenario D the annotation is
    [fetch, fetch, search], not [fetch, search]. *)
Lemma tools_annotation_keeps_duplicates :
  ¬ annotation_lists_distinct_labels.
Proof.
  intros H.
  specialize (H default_env (client_of scenario_D_session) (prompt_options "hi")
                scenario_D_session fetch_fetch_search
                (Some (assistant_message "ok")) eq_refl eq_refl eq_refl).
  assert (Hne : fetch_fetch_search ≠ []) by discriminate.
  specialize (H Hne). vm_compute in H. discriminate H.
Qed.

Lemma tools_used_lists_every_start_witness :
  (run_M (runBridge default_env (Returned (client_of scenario_D_session))
            (prompt_options "hi"))).2
    = Returned ("ok" +:+ nl +:+ nl +:+ "[Tools used: fetch, fetch, search]").
Proof.
  assert (Hne : fetch_fetch_search ≠ []) by discriminate.
  exact (tools_used_lists_every_start default_env (client_of scenario_D_session)
           (prompt_options "hi") scenario_D_session eq_refl fetch_fetch_search
           (Some (assistant_message "ok")) eq_refl eq_refl Hne).
Defined.

(** C7, as the specification has it, fails: when the last assistant message
    of the history has empty content, the result is the placeholder and not
    that message's content. *)
Lemma empty_last_message_gives_placeholder :
  ¬ extraction_uses_last_assistant_message.
Proof.
  intros H.
  specialize (H default_env (client_of empty_last_message_session)
                (prompt_options "hi") empty_last_message_session [] None
                [assistant_message "partial answer"; assistant_message ""]
                eq_refl eq_refl eq_refl eq_refl).
  vm_compute in H. discriminate H.
Qed.

Lemma result_extraction_chain_witness :
  (run_M (runBridge default_env (Returned (client_of scenario_C_session))
            (prompt_options "hi"))).2 = Returned "done"
  ∧ (run_M (runBridge default_env (Returned (client_of empty_last_message_session))
              (prompt_options "hi"))).2 = Returned "No response generated.".
Proof.
  split.
  - exact (result_extraction_chain default_env (client_of scenario_C_session)
             (prompt_options "hi") scenario_C_session eq_refl
             [tool_start "fetch"] None eq_refl [assistant_message "done"]
             (fun _ => eq_refl)).
  - exact (result_extraction_chain default_env
             (client_of empty_last_message_session)
             (prompt_options "hi") empty_last_message_session eq_refl
             [] None eq_refl
             [assistant_message "partial answer"; assistant_message ""]
             (fun _ => eq_refl)).
Defined.

Lemma fallback_result_has_no_annotation_witness :
  (run_M (runBridge default_env (Returned (client_of scenario_C_session))
            (prompt_options "hi"))).2 = Returned "done".
Proof.
  exact (fallback_result_has_no_annotation default_env
           (client_of scenario_C_session) (prompt_options "hi")
           scenario_C_session eq_refl [tool_start "fetch"] None eq_refl eq_refl).
Defined.

(** ** The tool-call handler *)

(** [runBridge] calls [createSession] once, with [sessionConfig]. *)
Lemma runBridge_creates_session_once (env : ProcessEnv) (client : Client)
    (options : BridgeOptions) :
  created_configs (run_M (runBridge env (Returned client) options)).1
    = [sessionConfig env options].
Proof.
  unfold_bridge. cbn.
  destruct (createSession client (sessionConfig env options)) as [session|e]; cbn;
    [|done].
  destruct (sendAndWait session (fullPrompt options)
              (effective_timeout env options)) as [starts [response|e]]; cbn.
  - destruct (content_truthy (response_content response)); cbn.
    + by destruct (destroy session).
    + destruct (getMessages session) as [messages|e]; cbn.
      * destruct (last _) as [lastMsg|]; [destruct (is_assistant_message lastMsg)|];
          by destruct (destroy session).
      * by destruct (destroy session).
  - by destruct (destroy session).
Qed.

(** For a prompt that is a non-empty string the handler runs [runBridge]
    on the options it has built. *)
Lemma handle_call_tool_runs_bridge (env : ProcessEnv) (acquired : Outcome Client)
    (args : ToolArguments) (prompt : string) :
  arg_prompt args = JStr prompt →
  str_truthy prompt = true →
  (handle_call_tool env acquired (call_tool args)).1
    = (run_M (runBridge env acquired (bridge_options prompt args))).1.
Proof.
  intros Hprompt Htruthy. unfold handle_call_tool, call_tool. cbn.
  rewrite Hprompt. cbn. rewrite Htruthy. cbn.
  by destruct (run_M _) as [trace [result|error]].
Qed.

(** A valid effort of the request reaches [createSession] as it is,
    whatever the model. *)
Lemma requested_effort_passed_unchanged (env : ProcessEnv) (prompt effort : string)
    (args : ToolArguments) :
  arg_reasoningEffort args = JStr effort →
  includes VALID_REASONING_EFFORTS effort = true →
  cfg_reasoningEffort (sessionConfig env (bridge_options prompt args)) = effort.
Proof.
  intros Harg Hvalid.
  unfold sessionConfig, effective_reasoningEffort, bridge_options.
  cbn [cfg_reasoningEffort opt_reasoningEffort default].
  unfold parseReasoningEffort. rewrite Harg, Hvalid.
  destruct effort as [|a effort']; [discriminate Hvalid|]. reflexivity.
Qed.

(** C6, as the specification has it, fails: for a model that takes [low],
    [medium] and [high] only, a request for [xhigh] on [gpt-5.2] reaches
    [createSession] as [xhigh]. *)
Lemma effort_not_clamped_to_supported_levels :
  ¬ effort_clamped_to_supported.
Proof.
  intros H.
  assert (Hprompt : "p" ≠ "") by discriminate.
  assert (Hsome : up_to_high
            (effective_model default_env (bridge_options "p" xhigh_on_gpt_5_2)) ≠ [])
    by discriminate.
  assert (Hout : "xhigh" ∉ up_to_high
            (effective_model default_env (bridge_options "p" xhigh_on_gpt_5_2))).
  { intros Hin. apply includes_elem_of in Hin. discriminate Hin. }
  specialize (H up_to_high default_env (client_of scenario_D_session)
                xhigh_on_gpt_5_2 "p" "xhigh" eq_refl Hprompt eq_refl Hsome Hout).
  rewrite (handle_call_tool_runs_bridge default_env _ xhigh_on_gpt_5_2 "p")
    in H by reflexivity.
  rewrite runBridge_creates_session_once in H.
  apply Forall_cons in H as [Hin _].
  apply includes_elem_of in Hin. discriminate Hin.
Qed.

(** C6, amended. A requested effort that is one of [low], [medium], [high],
    [xhigh] reaches [createSession] as it is, whatever the model is (the
    request's, or the default one): no set of levels of the model is looked
    at and nothing is clamped; and [createSession] is called, so the request
    is not rejected on account of its effort. *)
Theorem requested_effort_reaches_session_unclamped (env : ProcessEnv)
    (client : Client) (args : ToolArguments) (prompt level : string) :
  arg_prompt args = JStr prompt →
  prompt ≠ "" →
  arg_reasoningEffort args = JStr level →
  level ∈ VALID_REASONING_EFFORTS →
  (fun config => (cfg_model config, cfg_reasoningEffort config))
    <$> created_configs
          (handle_call_tool env (Returned client) (call_tool args)).1
  = [(default (DEFAULT_MODEL env) (string_or_undefined (arg_model args)), level)].
Proof.
  intros Hprompt Hne Hlevel Hvalid.
  assert (Htruthy : str_truthy prompt = true) by (by destruct prompt).
  rewrite (handle_call_tool_runs_bridge env _ args prompt Hprompt Htruthy).
  rewrite runBridge_creates_session_once. cbn [fmap list_fmap]. f_equal. f_equal.
  apply requested_effort_passed_unchanged; [done|]. by apply includes_elem_of.
Qed.

Lemma requested_effort_reaches_session_unclamped_witness :
  (fun config => (cfg_model config, cfg_reasoningEffort config))
    <$> created_configs
          (handle_call_tool default_env (Returned (client_of scenario_D_session))
             (call_tool xhigh_on_gpt_5_2)).1
  = [("gpt-5.2", "xhigh")].
Proof.
  assert (Hprompt : "p" ≠ "") by discriminate.
  assert (Hvalid : "xhigh" ∈ VALID_REASONING_EFFORTS)
    by (apply includes_elem_of; reflexivity).
  exact (requested_effort_reaches_session_unclamped default_env
           (client_of scenario_D_session) xhigh_on_gpt_5_2 "p" "xhigh"
           eq_refl Hprompt eq_refl Hvalid).
Defined.

(** C8 fails on the code. With [COPILOT_REASONING_EFFORT=low] the configured
    default is [low], yet a request that names no effort gets a session with
    effort [high]: the handler passes [parseReasoningEffort(undefined)],
    which is the constant ["high"], and the default of [runBridge] is never
    used. *)
Theorem missing_effort_ignores_configured_default (client : Client) :
  DEFAULT_REASONING_EFFORT low_effort_env = "low"
  ∧ cfg_reasoningEffort
      <$> created_configs
            (handle_call_tool low_effort_env (Returned client)
               (call_tool (prompt_only "p"))).1
    = ["high"].
Proof.
  split; [reflexivity|].
  rewrite (handle_call_tool_runs_bridge _ _ (prompt_only "p") "p") by reflexivity.
  rewrite runBridge_creates_session_once. reflexivity.
Qed.

(** C9. A tool call whose prompt is missing, is not a string or is the empty
    string gets an error result at once: the handler makes no call at all
    ([getClient] is not called, no session is created), and for the bridge
    tool the result is the prompt-required error. *)
Theorem invalid_prompt_rejected_before_bridge (env : ProcessEnv)
    (acquired : Outcome Client) (request : CallToolRequest) :
  (∀ s, arg_prompt (default no_arguments (params_arguments request)) = JStr s
        → s = "") →
  let result := handle_call_tool env acquired request in
  result.1 = []
  ∧ isError result.2 = true
  ∧ (params_name request = TOOL_NAME → result_text result.2 = PROMPT_REQUIRED).
Proof.
  intros Hprompt. cbn zeta. unfold handle_call_tool.
  destruct (String.eqb (params_name request) TOOL_NAME) eqn:Hname; cbn.
  - assert (Hreject :
      negb (truthy (arg_prompt (default no_arguments (params_arguments request))))
      || negb (typeof_string
                 (arg_prompt (default no_arguments (params_arguments request))))
      = true).
    { destruct (arg_prompt _) as [| |b|n|s|] eqn:Hp; cbn;
        try reflexivity; try apply orb_true_r.
      rewrite (Hprompt s eq_refl). reflexivity. }
    rewrite Hreject. cbn. done.
  - repeat split. intros Heq. rewrite Heq in Hname. discriminate Hname.
Qed.

Lemma invalid_prompt_rejected_before_bridge_witness :
  let result :=
    handle_call_tool default_env (Returned (client_of scenario_D_session))
      (call_tool (prompt_only "")) in
  result.1 = []
  ∧ isError result.2 = true
  ∧ result_text result.2 = "Error: prompt is required and must be a string".
Proof.
  assert (Hprompt : ∀ s,
    arg_prompt (default no_arguments (params_arguments (call_tool (prompt_only ""))))
      = JStr s → s = "").
  { intros s Hs. cbn in Hs. injection Hs as <-. reflexivity. }
  destruct (invalid_prompt_rejected_before_bridge default_env
              (Returned (client_of scenario_D_session))
              (call_tool (prompt_only "")) Hprompt) as (Htrace & Herr & Htext).
  split; [exact Htrace|]. split; [exact Herr|]. exact (Htext eq_refl).
Defined.

(** ** The init lock of [getClient] *)

Lemma run_app (rt : Runtime) (s1 s2 : list Action) :
  run rt (s1 ++ s2)%list
    = match run rt s1 with
      | Some rt' => run rt' s2
      | None => None
      end.
Proof.
  revert rt. induction s1 as [|a s1 IH]; intros rt; cbn; [done|].
  destruct (step rt a) as [rt'|]; [apply IH | done].
Qed.

Ltac caller_cases H i :=
  specialize (H i); try rewrite lookup_insert;
  repeat case_decide; subst; try done; try congruence; try set_solver.

(** The first caller starts the only attempt. *)
Lemma first_call_starts (first : nat) :
  ∃ rt, getClient_call first uninitialized = Some rt ∧ in_flight first ∅ rt.
Proof.
  eexists. split; [reflexivity|].
  repeat split. intros i. cbn.
  repeat case_decide; simplify_map_eq; try done; set_solver.
Qed.

(** A caller that arrives while the attempt is pending joins it: [start]
    is not called again. *)
Lemma later_call_joins (first j : nat) (joined : gset nat) (rt : Runtime) :
  in_flight first joined rt →
  j ≠ first → j ∉ joined →
  ∃ rt', getClient_call j rt = Some rt' ∧ in_flight first ({[j]} ∪ joined) rt'.
Proof.
  intros (Hsingle & Hinit & Hprom & Hstart & Hcallers) Hne Hnot.
  unfold getClient_call.
  pose proof (Hcallers j) as Hj.
  rewrite decide_False in Hj by done. rewrite decide_False in Hj by done.
  rewrite Hj, Hsingle, Hinit.
  eexists. split; [reflexivity|].
  repeat split; try done. intros i. cbn. caller_cases Hcallers i.
Qed.

Lemma later_calls_join (js : list nat) :
  ∀ (first : nat) (joined : gset nat) (rt : Runtime),
    in_flight first joined rt →
    NoDup js →
    (∀ j, j ∈ js → j ≠ first ∧ j ∉ joined) →
    ∃ rt', run rt (Call <$> js) = Some rt'
           ∧ in_flight first (list_to_set js ∪ joined) rt'.
Proof.
  induction js as [|j js IH]; intros first joined rt Hin Hnodup Hfresh.
  - exists rt. split; [done|].
    by replace (list_to_set [] ∪ joined) with joined by set_solver.
  - apply NoDup_cons in Hnodup as [Hj Hnodup].
    destruct (Hfresh j) as [Hne Hnot]; [left|].
    destruct (later_call_joins first j joined rt Hin Hne Hnot) as (rt1 & Hstep & Hin1).
    destruct (IH first ({[j]} ∪ joined) rt1 Hin1 Hnodup) as (rt2 & Hrun & Hin2).
    { intros k Hk. destruct (Hfresh k) as [Hk1 Hk2]; [by right|].
      split; [done|]. set_solver. }
    exists rt2. split; [cbn; by rewrite Hstep|].
    by replace (list_to_set (j :: js) ∪ joined)
      with (list_to_set js ∪ ({[j]} ∪ joined)) by set_solver.
Qed.

(** The end of [start] settles the one promise. *)
Lemma start_settles_once (first : nat) (joined : gset nat) (o : Outcome unit)
    (rt : Runtime) :
  in_flight first joined rt →
  ∃ rt', start_settles 0 o rt = Some rt'
         ∧ settled o first ({[first]} ∪ joined) ∅ rt'.
Proof.
  intros (Hsingle & Hinit & Hprom & Hstart & Hcallers).
  unfold start_settles. rewrite Hprom. cbn.
  destruct o as [[]|error]; (eexists; split; [reflexivity|]);
    repeat split; cbn; try done; intros i; caller_cases Hcallers i.
Qed.

(** A continuation that runs after [start] has ended gives its caller the
    outcome of the attempt; the continuation of the first caller also clears
    [clientInitPromise] when the attempt has failed. *)
Lemma resume_observes_outcome (o : Outcome unit) (first i : nat)
    (all resumed : gset nat) (rt : Runtime) :
  settled o first all resumed rt →
  first ∈ all → i ∈ all → i ∉ resumed →
  ∃ rt', getClient_resume i rt = Some rt'
         ∧ settled o first all ({[i]} ∪ resumed) rt'.
Proof.
  intros (Hprom & Hstart & Hsingle & Hinit & Hcallers) Hfirst Hin Hnot.
  unfold getClient_resume.
  pose proof (Hcallers i) as Hi.
  rewrite decide_False in Hi by done.
  destruct (decide (i = first)) as [->|Hne].
  - rewrite Hi, Hprom. destruct o as [[]|error]; cbn;
      (eexists; split; [reflexivity|]);
      (repeat split; cbn; try done).
    + intros i. caller_cases Hcallers i.
    + rewrite decide_True by set_solver. done.
    + intros i. caller_cases Hcallers i.
  - rewrite decide_True in Hi by done.
    rewrite Hi, Hprom. destruct o as [[]|error]; cbn;
      (eexists; split; [reflexivity|]);
      (repeat split; cbn; try done).
    + intros k. caller_cases Hcallers k.
    + rewrite Hinit. repeat case_decide; try done; set_solver.
    + intros k. caller_cases Hcallers k.
Qed.

Lemma resumes_observe_outcome (rs : list nat) :
  ∀ (o : Outcome unit) (first : nat) (all resumed : gset nat) (rt : Runtime),
    settled o first all resumed rt →
    first ∈ all →
    NoDup rs →
    (∀ i, i ∈ rs → i ∈ all ∧ i ∉ resumed) →
    ∃ rt', run rt (Resume <$> rs) = Some rt'
           ∧ settled o first all (list_to_set rs ∪ resumed) rt'.
Proof.
  induction rs as [|i rs IH]; intros o first all resumed rt Hset Hfirst Hnodup Hwait.
  - exists rt. split; [done|].
    by replace (list_to_set [] ∪ resumed) with resumed by set_solver.
  - apply NoDup_cons in Hnodup as [Hi Hnodup].
    destruct (Hwait i) as [Hin Hnot]; [left|].
    destruct (resume_observes_outcome o first i all resumed rt Hset Hfirst Hin Hnot)
      as (rt1 & Hstep & Hset1).
    destruct (IH o first all ({[i]} ∪ resumed) rt1 Hset1 Hfirst Hnodup)
      as (rt2 & Hrun & Hset2).
    { intros k Hk. destruct (Hwait k) as [Hk1 Hk2]; [by right|].
      split; [done|]. set_solver. }
    exists rt2. split; [cbn; by rewrite Hstep|].
    by replace (list_to_set (i :: rs) ∪ resumed)
      with (list_to_set rs ∪ ({[i]} ∪ resumed)) by set_solver.
Qed.

(** After a failed attempt whose first caller has resumed, the next call
    starts a new attempt. *)
Lemma call_after_failure_retries (error : Thrown) (first j : nat)
    (all resumed : gset nat) (rt : Runtime) :
  settled (Threw error) first all resumed rt →
  first ∈ resumed → j ∉ all → j ∉ resumed →
  ∃ rt', getClient_call j rt = Some rt'
         ∧ start_calls rt' = 2%nat
         ∧ clientInitPromise rt' = Some 1%nat
         ∧ promises rt' !! 1%nat = Some Pending
         ∧ callers rt' !! j = Some (AwaitingInTry 1).
Proof.
  intros (Hprom & Hstart & Hsingle & Hinit & Hcallers) Hfirst Hall Hres.
  unfold getClient_call.
  pose proof (Hcallers j) as Hj.
  rewrite decide_False in Hj by done.
  rewrite decide_False in Hj by set_solver.
  rewrite decide_False in Hj by done.
  rewrite decide_True in Hinit by done.
  rewrite Hj, Hsingle, Hinit, Hprom, Hstart. cbn.
  eexists. split; [reflexivity|]. cbn.
  repeat split. by rewrite lookup_insert_eq.
Qed.

(** C5. Any number of callers call [getClient] while nothing is initialised
    and before [start] has ended; then [start] ends with [o], and the
    callers' continuations run in any order.  This schedule runs to its end:
    [start] has been called exactly once; every caller has the same outcome,
    the client of that one attempt or the error [start] failed with; and
    after a failure [singletonClient] and [clientInitPromise] are both
    cleared, so that the next call of [getClient] calls [start] again, for a
    new attempt. *)
Theorem getClient_single_flight (first : nat) (others resumes : list nat)
    (o : Outcome unit) :
  NoDup (first :: others) →
  resumes ≡ₚ first :: others →
  ∃ rt,
    run uninitialized (concurrent_schedule (first :: others) resumes o) = Some rt
    ∧ start_calls rt = 1%nat
    ∧ (∀ i, i ∈ first :: others → callers rt !! i = Some (Finished (observed o)))
    ∧ match o with
      | Returned _ => singletonClient rt = Some 0%nat
      | Threw _ =>
          singletonClient rt = None
          ∧ clientInitPromise rt = None
          ∧ ∀ j, j ∉ first :: others →
              ∃ rt', getClient_call j rt = Some rt'
                     ∧ start_calls rt' = 2%nat
                     ∧ clientInitPromise rt' = Some 1%nat
                     ∧ promises rt' !! 1%nat = Some Pending
                     ∧ callers rt' !! j = Some (AwaitingInTry 1)
      end.
Proof.
  intros Hnodup Hperm.
  pose proof Hnodup as Hnodup'. apply NoDup_cons in Hnodup' as [Hfirst Hothers].
  destruct (first_call_starts first) as (rt1 & Hcall1 & Hin1).
  destruct (later_calls_join others first ∅ rt1 Hin1 Hothers) as (rt2 & Hrun2 & Hin2).
  { intros j Hj. split; [|set_solver]. intros ->. done. }
  destruct (start_settles_once first _ o rt2 Hin2) as (rt3 & Hsettle & Hset3).
  assert (Hnodup_r : NoDup resumes) by (by rewrite Hperm).
  destruct (resumes_observe_outcome resumes o first _ ∅ rt3 Hset3) as (rt4 & Hrun4 & Hset4);
    [set_solver | done | |].
  { intros i Hi. rewrite Hperm in Hi. split; [|set_solver].
    apply elem_of_cons in Hi as [->|Hi]; set_solver. }
  exists rt4. split.
  { unfold concurrent_schedule. rewrite fmap_cons, run_app.
    cbn [run step]. rewrite Hcall1, Hrun2.
    cbn [app run step]. by rewrite Hsettle. }
  assert (Hall : ∀ i, i ∈ first :: others → i ∈ (list_to_set resumes ∪ ∅ : gset nat)).
  { intros i Hi. rewrite <- Hperm in Hi. set_solver. }
  destruct Hset4 as (Hprom & Hstart & Hsingle & Hinit & Hcallers).
  split; [done|]. split.
  { intros i Hi. specialize (Hcallers i). by rewrite decide_True in Hcallers by auto. }
  destruct o as [[]|error]; [done|].
  split; [done|]. split.
  { rewrite Hinit. rewrite decide_True; [done|]. apply Hall. left. }
  intros j Hj.
  apply (call_after_failure_retries error first j
           ({[first]} ∪ (list_to_set others ∪ ∅)) (list_to_set resumes ∪ ∅) rt4).
  - done.
  - apply Hall. left.
  - set_solver.
  - rewrite <- Hperm in Hj. set_solver.
Qed.

Lemma getClient_single_flight_witness :
  ∃ rt,
    run uninitialized
        (concurrent_schedule [0; 1; 2]%nat [2; 0; 1]%nat start_failure) = Some rt
    ∧ start_calls rt = 1%nat
    ∧ (∀ i, i ∈ [0; 1; 2]%nat →
         callers rt !! i = Some (Finished (Threw (ThrownError "Copilot CLI not found"))))
    ∧ singletonClient rt = None
    ∧ clientInitPromise rt = None
    ∧ ∀ j, j ∉ [0; 1; 2]%nat →
        ∃ rt', getClient_call j rt = Some rt'
               ∧ start_calls rt' = 2%nat
               ∧ clientInitPromise rt' = Some 1%nat
               ∧ promises rt' !! 1%nat = Some Pending
               ∧ callers rt' !! j = Some (AwaitingInTry 1).
Proof.
  apply (getClient_single_flight 0 [1; 2]%nat [2; 0; 1]%nat start_failure).
  - apply (bool_decide_unpack _). vm_compute. exact I.
  - eapply perm_trans; [apply perm_swap | apply perm_skip, perm_swap].
Defined.


(** ** More on the configuration and the handler's validation *)

Lemma parseReasoningEffort_cases (value : JsVal) :
  (∃ s, value = JStr s ∧ includes VALID_REASONING_EFFORTS s = true
        ∧ parseReasoningEffort value = s)
  ∨ parseReasoningEffort value = "high".
Proof.
  destruct value as [| |b|n|s|]; try by right.
  unfold parseReasoningEffort.
  destruct (includes VALID_REASONING_EFFORTS s) eqn:Hs.
  - left. exists s. destruct s; [discriminate Hs | done].
  - right. by rewrite andb_false_r.
Qed.

Lemma parseReasoningEffort_valid (value : JsVal) :
  parseReasoningEffort value ∈ VALID_REASONING_EFFORTS.
Proof.
  destruct (parseReasoningEffort_cases value) as [(s & _ & Hs & ->)| ->];
    by apply includes_elem_of.
Qed.

(** X1. [parseReasoningEffort] always returns one of the four valid
    efforts, and parsing its own result changes nothing. *)
Theorem parseReasoningEffort_valid_idempotent (value : JsVal) :
  parseReasoningEffort value ∈ VALID_REASONING_EFFORTS
  ∧ parseReasoningEffort (JStr (parseReasoningEffort value))
    = parseReasoningEffort value.
Proof.
  split; [apply parseReasoningEffort_valid|].
  destruct (parseReasoningEffort_cases value) as [(s & _ & Hs & ->)| ->];
    [|reflexivity].
  destruct (parseReasoningEffort_cases (JStr s)) as [(s' & [= <-] & _ & ->)|H];
    [done|].
  unfold parseReasoningEffort in *. rewrite Hs in *.
  destruct s; [discriminate Hs | done].
Qed.

(** How a tool call ends, by the three paths of the handler. *)
Lemma handle_call_tool_cases (env : ProcessEnv) (acquired : Outcome Client)
    (request : CallToolRequest) :
  let args := default no_arguments (params_arguments request) in
  (params_name request ≠ TOOL_NAME
   ∧ handle_call_tool env acquired request
     = ([], {| result_text := "Unknown tool: " +:+ params_name request;
               isError := true |}))
  ∨ (params_name request = TOOL_NAME
     ∧ (∀ s, arg_prompt args = JStr s → s = "")
     ∧ handle_call_tool env acquired request
       = ([], {| result_text := PROMPT_REQUIRED; isError := true |}))
  ∨ (params_name request = TOOL_NAME
     ∧ ∃ prompt, arg_prompt args = JStr prompt ∧ prompt ≠ ""
       ∧ handle_call_tool env acquired request
         = match run_M (runBridge env acquired (bridge_options prompt args)) with
           | (trace, Returned result) =>
               (trace, {| result_text := result; isError := false |})
           | (trace, Threw error) =>
               (trace, {| result_text := "Error: " +:+ error_message error;
                          isError := true |})
           end).
Proof.
  cbn zeta. unfold handle_call_tool. cbv zeta.
  destruct (String.eqb (params_name request) TOOL_NAME) eqn:Hname; cbn [negb].
  - apply String.eqb_eq in Hname. right.
    destruct (arg_prompt (default no_arguments (params_arguments request)))
      as [| |b|n|s|] eqn:Hp; cbn; rewrite ?orb_true_r;
      try (left; split; [done|]; split; [intros s' Hs'; discriminate Hs' | done]).
    destruct s as [|a s].
    + left. split; [done|]. split; [|done]. by intros s' [= <-].
    + right. split; [done|]. exists (String a s). split; [done|]. split; done.
  - left. split; [|done]. intros Heq. rewrite Heq in Hname. discriminate Hname.
Qed.

(** The trace of [runBridge] begins with the call of [getClient]. *)
Lemma runBridge_trace_head (env : ProcessEnv) (acquired : Outcome Client)
    (options : BridgeOptions) :
  ∃ rest, (run_M (runBridge env acquired options)).1 = EffGetClient :: rest.
Proof.
  unfold_bridge. destruct acquired as [client|e]; cbn; [|by eexists].
  destruct (createSession client (sessionConfig env options)) as [session|e]; cbn;
    [|by eexists].
  destruct (sendAndWait session (fullPrompt options)
              (effective_timeout env options)) as [starts [response|e]]; cbn.
  - destruct (content_truthy (response_content response)); cbn.
    + destruct (destroy session); by eexists.
    + destruct (getMessages session) as [messages|e]; cbn.
      * destruct (last _) as [lastMsg|]; [destruct (is_assistant_message lastMsg)|];
          destruct (destroy session); by eexists.
      * destruct (destroy session); by eexists.
  - destruct (destroy session); by eexists.
Qed.

(** X2. The handler reaches [runBridge] (and with it [getClient]) exactly
    for the bridge tool with a prompt that is a non-empty string: for every
    other call its trace of calls is empty. *)
Theorem handler_calls_iff_valid_request (env : ProcessEnv)
    (acquired : Outcome Client) (request : CallToolRequest) :
  (handle_call_tool env acquired request).1 ≠ []
  ↔ params_name request = TOOL_NAME
    ∧ ∃ s, arg_prompt (default no_arguments (params_arguments request)) = JStr s
           ∧ s ≠ "".
Proof.
  destruct (handle_call_tool_cases env acquired request)
    as [[Hname Hres]|[(Hname & Hprompt & Hres)|(Hname & prompt & Hp & Hne & Hres)]].
  - rewrite Hres. cbn. split; [done|]. intros [Heq _]. by exfalso.
  - rewrite Hres. cbn. split; [done|]. intros (_ & s & Hs & Hne).
    exfalso. by apply Hne, Hprompt.
  - split; [intros _; split; [done|]; by exists prompt|]. intros _.
    rewrite Hres.
    destruct (runBridge_trace_head env acquired (bridge_options prompt
      (default no_arguments (params_arguments request)))) as [rest Hrest].
    destruct (run_M _) as [trace [result|error]]; cbn in *; by rewrite Hrest.
Qed.

(** X3. A call for any other tool name is answered with the error
    ["Unknown tool: <name>"], whatever its arguments, and nothing is
    called. *)
Theorem unknown_tool_rejected (env : ProcessEnv) (acquired : Outcome Client)
    (request : CallToolRequest) :
  params_name request ≠ TOOL_NAME →
  handle_call_tool env acquired request
    = ([], {| result_text := "Unknown tool: " +:+ params_name request;
              isError := true |}).
Proof.
  intros Hname.
  destruct (handle_call_tool_cases env acquired request)
    as [[_ Hres]|[(Heq & _)|(Heq & _)]]; done.
Qed.

Lemma unknown_tool_rejected_witness :
  handle_call_tool default_env (Returned (client_of scenario_D_session))
    {| params_name := "ask-gemini"; params_arguments := Some (prompt_only "hi") |}
  = ([], {| result_text := "Unknown tool: ask-gemini"; isError := true |}).
Proof.
  apply (unknown_tool_rejected default_env (Returned (client_of scenario_D_session))
           {| params_name := "ask-gemini";
              params_arguments := Some (prompt_only "hi") |}).
  cbn. intros H. discriminate H.
Defined.

(** X4. Every effort the handler hands to [createSession] is one of the four
    valid efforts, whatever the request and the environment hold. *)
Theorem session_effort_always_valid (env : ProcessEnv)
    (acquired : Outcome Client) (request : CallToolRequest) :
  Forall (fun config => cfg_reasoningEffort config ∈ VALID_REASONING_EFFORTS)
    (created_configs (handle_call_tool env acquired request).1).
Proof.
  destruct (handle_call_tool_cases env acquired request)
    as [[Hname Hres]|[(Hname & Hprompt & Hres)|(Hname & prompt & Hp & Hne & Hres)]];
    rewrite Hres; try by constructor.
  set (options := bridge_options prompt _).
  assert (Htrace : Forall
    (fun config => cfg_reasoningEffort config ∈ VALID_REASONING_EFFORTS)
    (created_configs (run_M (runBridge env acquired options)).1)).
  { destruct acquired as [client|e].
    - rewrite runBridge_creates_session_once. constructor; [|constructor].
      apply parseReasoningEffort_valid.
    - constructor. }
  by destruct (run_M _) as [trace [result|error]].
Qed.

(** ** More on [runBridge]: failure paths and the result text *)

(** X5. When [getClient] fails, the handler reports the error as it is,
    ["Error: <message>"], without the bridge-failure prefix: [getClient] is
    awaited before the [try] block.  Nothing else is called. *)
Theorem client_failure_reported_unwrapped (env : ProcessEnv) (error : Thrown)
    (args : ToolArguments) (prompt : string) :
  arg_prompt args = JStr prompt →
  prompt ≠ "" →
  handle_call_tool env (Threw error) (call_tool args)
    = ([EffGetClient],
       {| result_text := "Error: " +:+ error_message error; isError := true |}).
Proof.
  intros Hprompt Hne.
  destruct (handle_call_tool_cases env (Threw error) (call_tool args))
    as [[Hname _]|[(_ & Hinvalid & _)|(_ & p & Hp & _ & Hres)]].
  - done.
  - cbn in Hinvalid. by specialize (Hinvalid prompt Hprompt).
  - by rewrite Hres.
Qed.

Lemma client_failure_reported_unwrapped_witness :
  handle_call_tool default_env (Threw (ThrownError "Copilot CLI not found"))
    (call_tool (prompt_only "hi"))
  = ([EffGetClient],
     {| result_text := "Error: Copilot CLI not found"; isError := true |}).
Proof.
  apply (client_failure_reported_unwrapped default_env
           (ThrownError "Copilot CLI not found") (prompt_only "hi") "hi").
  - reflexivity.
  - intros H. discriminate H.
Defined.

(** X6. When [createSession] fails, [runBridge] throws the wrapped error
    and calls nothing further: there is no session, and [destroy] is not
    called. *)
Theorem session_creation_failure_no_destroy (env : ProcessEnv) (client : Client)
    (options : BridgeOptions) (error : Thrown) :
  createSession client (sessionConfig env options) = Threw error →
  run_M (runBridge env (Returned client) options)
    = ([EffGetClient; EffCreateSession (sessionConfig env options)],
       Threw (ThrownError ("Copilot-Gemini bridge failed: "
                           +:+ error_message error))).
Proof. intros Hfail. unfold_bridge. by rewrite Hfail. Qed.

Lemma session_creation_failure_no_destroy_witness :
  let whole :=
    run_M (runBridge default_env
             (Returned (failing_client (ThrownError "MCP server unreachable")))
             (prompt_options "hi")) in
  destroy_calls whole.1 = 0%nat
  ∧ whole.2 = Threw (ThrownError
        "Copilot-Gemini bridge failed: MCP server unreachable").
Proof.
  cbn zeta.
  rewrite (session_creation_failure_no_destroy default_env
             (failing_client (ThrownError "MCP server unreachable"))
             (prompt_options "hi") (ThrownError "MCP server unreachable") eq_refl).
  split; reflexivity.
Defined.

Lemma runBridge_error_wrapped (env : ProcessEnv) (client : Client)
    (options : BridgeOptions) (error : Thrown) :
  (run_M (runBridge env (Returned client) options)).2 = Threw error →
  ∃ cause, error = ThrownError ("Copilot-Gemini bridge failed: " +:+ cause).
Proof.
  unfold_bridge. cbn.
  destruct (createSession client (sessionConfig env options)) as [session|e]; cbn.
  - destruct (sendAndWait session (fullPrompt options)
                (effective_timeout env options)) as [starts [response|e]]; cbn.
    + destruct (content_truthy (response_content response)); cbn.
      * destruct (destroy session); cbn; intros H; discriminate H.
      * destruct (getMessages session) as [messages|e]; cbn.
        -- destruct (last _) as [lastMsg|];
             [destruct (is_assistant_message lastMsg)|];
             destruct (destroy session); cbn; intros H; discriminate H.
        -- destruct (destroy session); cbn; intros [= <-]; by eexists.
    + destruct (destroy session); cbn; intros [= <-]; by eexists.
  - intros [= <-]. by eexists.
Qed.

(** X7. Whatever [runBridge] throws is either the error [getClient] failed
    with, untouched, or an [Error] whose message begins with
    ["Copilot-Gemini bridge failed: "] - for every behaviour of the client
    and of the session. *)
Theorem bridge_errors_are_wrapped (env : ProcessEnv) (acquired : Outcome Client)
    (options : BridgeOptions) (error : Thrown) :
  (run_M (runBridge env acquired options)).2 = Threw error →
  acquired = Threw error
  ∨ ∃ cause, error = ThrownError ("Copilot-Gemini bridge failed: " +:+ cause).
Proof.
  destruct acquired as [client|e]; intros Hthrew.
  - right. by apply (runBridge_error_wrapped env client options).
  - left. cbn in Hthrew. by injection Hthrew as ->.
Qed.

Lemma bridge_errors_are_wrapped_witness :
  (run_M (runBridge default_env (Returned (client_of scenario_B_session))
            (prompt_options "summarize X"))).2
    = Threw (ThrownError
        "Copilot-Gemini bridge failed: Timeout after 5ms waiting for session.idle")
  ∧ (Returned (client_of scenario_B_session)
       = Threw (ThrownError
           "Copilot-Gemini bridge failed: Timeout after 5ms waiting for session.idle")
     ∨ ∃ cause,
         ThrownError
           "Copilot-Gemini bridge failed: Timeout after 5ms waiting for session.idle"
         = ThrownError ("Copilot-Gemini bridge failed: " +:+ cause)).
Proof.
  split; [reflexivity|].
  exact (bridge_errors_are_wrapped default_env
           (Returned (client_of scenario_B_session))
           (prompt_options "summarize X") _ eq_refl).
Defined.

(** X8. The text [runBridge] returns is never empty: it is a non-empty
    content, a non-empty message of the history, or the placeholder. *)
Theorem result_never_empty (env : ProcessEnv) (acquired : Outcome Client)
    (options : BridgeOptions) (text : string) :
  (run_M (runBridge env acquired options)).2 = Returned text →
  text ≠ "".
Proof.
  assert (Htruthy : ∀ (c : option string) (suffix : string),
            content_truthy c = true → default "" c +:+ suffix ≠ "").
  { intros [[|a s]|] suffix Hc; try discriminate Hc. cbn. discriminate. }
  assert (Hmessage : ∀ c : option string, content_truthy c = true → default "" c ≠ "").
  { intros [[|a s]|] Hc; try discriminate Hc. cbn. discriminate. }
  unfold_bridge. destruct acquired as [client|e]; cbn; [|intros H; discriminate H].
  destruct (createSession client (sessionConfig env options)) as [session|e]; cbn;
    [|intros H; discriminate H].
  destruct (sendAndWait session (fullPrompt options)
              (effective_timeout env options)) as [starts [response|e]]; cbn.
  - destruct (content_truthy (response_content response)) eqn:Hc; cbn.
    + destruct (destroy session); cbn; intros [= <-]; by apply Htruthy.
    + destruct (getMessages session) as [messages|e]; cbn.
      * destruct (last _) as [lastMsg|];
          [destruct (is_assistant_message lastMsg);
           [destruct (content_truthy (ev_data_content lastMsg)) eqn:Hl|]|];
          destruct (destroy session); cbn; intros [= <-]; try discriminate;
          by apply Hmessage.
      * destruct (destroy session); cbn; intros H; discriminate H.
  - destruct (destroy session); cbn; intros H; discriminate H.
Qed.

Lemma result_never_empty_witness :
  (run_M (runBridge default_env (Returned (client_of scenario_C_session))
            (prompt_options "hi"))).2 = Returned "done"
  ∧ "done" ≠ "".
Proof.
  split; [reflexivity|].
  exact (result_never_empty default_env (Returned (client_of scenario_C_session))
           (prompt_options "hi") "done" eq_refl).
Defined.

(** X9. [getMessages] is called only when the final message has no
    content, and then once. *)
Theorem getMessages_only_without_content (env : ProcessEnv) (client : Client)
    (options : BridgeOptions) (session : Session)
    (starts : list ToolExecutionStart) (response : option SessionEvent) :
  createSession client (sessionConfig env options) = Returned session →
  sendAndWait session (fullPrompt options) (effective_timeout env options)
    = (starts, Returned response) →
  getMessages_calls (run_M (runBridge env (Returned client) options)).1
    = if content_truthy (response_content response) then 0%nat else 1%nat.
Proof.
  intros Hcreated Hsent. unfold_bridge. rewrite Hcreated. cbn.
  rewrite Hsent. cbn.
  destruct (content_truthy (response_content response)); cbn.
  - by destruct (destroy session).
  - destruct (getMessages session) as [messages|e]; cbn.
    + destruct (last _) as [lastMsg|]; [destruct (is_assistant_message lastMsg)|];
        by destruct (destroy session).
    + by destruct (destroy session).
Qed.

Lemma getMessages_only_without_content_witness :
  getMessages_calls
    (run_M (runBridge default_env (Returned (client_of scenario_D_session))
              (prompt_options "hi"))).1 = 0%nat
  ∧ getMessages_calls
      (run_M (runBridge default_env (Returned (client_of scenario_C_session))
                (prompt_options "hi"))).1 = 1%nat.
Proof.
  split.
  - exact (getMessages_only_without_content default_env
             (client_of scenario_D_session) (prompt_options "hi")
             scenario_D_session fetch_fetch_search
             (Some (assistant_message "ok")) eq_refl eq_refl).
  - exact (getMessages_only_without_content default_env
             (client_of scenario_C_session) (prompt_options "hi")
             scenario_C_session [tool_start "fetch"] None eq_refl eq_refl).
Defined.

(** X10. A prompt that times out (or fails otherwise) in [sendAndWait]:
    the handler answers with the error result
    ["Error: Copilot-Gemini bridge failed: <message>"]; the history is not
    read, and the session is destroyed. *)
Theorem send_failure_reported (env : ProcessEnv) (client : Client)
    (args : ToolArguments) (prompt : string) (session : Session)
    (starts : list ToolExecutionStart) (error : Thrown) :
  arg_prompt args = JStr prompt →
  prompt ≠ "" →
  let options := bridge_options prompt args in
  createSession client (sessionConfig env options) = Returned session →
  sendAndWait session (fullPrompt options) (effective_timeout env options)
    = (starts, Threw error) →
  handle_call_tool env (Returned client) (call_tool args)
    = ([EffGetClient; EffCreateSession (sessionConfig env options);
        EffSendAndWait (fullPrompt options) (effective_timeout env options);
        EffDestroy (sessionId session)],
       {| result_text := "Error: Copilot-Gemini bridge failed: "
                         +:+ error_message error;
          isError := true |}).
Proof.
  intros Hprompt Hne options Hcreated Hsent. subst options.
  destruct (handle_call_tool_cases env (Returned client) (call_tool args))
    as [[Hname _]|[(_ & Hinvalid & _)|(_ & p & Hp & _ & Hres)]].
  - done.
  - cbn in Hinvalid. by specialize (Hinvalid prompt Hprompt).
  - cbn in Hp. rewrite Hprompt in Hp. injection Hp as <-.
    rewrite Hres.
    change (default no_arguments (params_arguments (call_tool args))) with args.
    remember (bridge_options prompt args) as options eqn:Hoptions. clear Hoptions.
    unfold_bridge. rewrite Hcreated. cbn. rewrite Hsent. cbn.
    by destruct (destroy session).
Qed.

Lemma send_failure_reported_witness :
  (handle_call_tool default_env (Returned (client_of scenario_B_session))
     (call_tool (prompt_with_timeout "summarize X" (JNum (Finite 5))))).2
  = {| result_text :=
         "Error: Copilot-Gemini bridge failed: Timeout after 5ms waiting for session.idle";
       isError := true |}.
Proof.
  assert (Hne : "summarize X" ≠ "") by discriminate.
  rewrite (send_failure_reported default_env (client_of scenario_B_session)
             (prompt_with_timeout "summarize X" (JNum (Finite 5))) "summarize X"
             scenario_B_session [tool_start "fetch"]
             (ThrownError "Timeout after 5ms waiting for session.idle")
             eq_refl Hne eq_refl eq_refl).
  reflexivity.
Defined.

(** ** More on the session configuration *)

(** X11. The two write restrictions of a session always agree.  With write
    access the session excludes no tool and its callback approves every
    request; without, it excludes the write tools and its callback denies
    every request outside the read-only kinds. *)
Theorem write_restrictions_agree (env : ProcessEnv) (options : BridgeOptions) :
  let config := sessionConfig env options in
  (cfg_excludedTools config = None
   ∧ ∀ request, cfg_onPermissionRequest config request = Approved)
  ∨ (cfg_excludedTools config = Some WRITE_TOOLS
     ∧ ∀ request, kind request ∉ READ_ONLY_ALLOWED_KINDS →
         cfg_onPermissionRequest config request
           = DeniedByRules [write_access_disabled]).
Proof.
  cbn zeta. unfold sessionConfig. cbn [cfg_excludedTools cfg_onPermissionRequest].
  destruct (effective_writeAccess env options).
  - left. split; [done|]. intros request. unfold onPermissionRequest.
    by destruct (includes _ _).
  - right. split; [done|]. intros request Hkind. unfold onPermissionRequest.
    by rewrite includes_not_elem_of.
Qed.

(** X12. For a tool call, write access is off in exactly two cases: the
    request says [writeAccess: false], or the request holds no boolean there
    and [COPILOT_WRITE_ACCESS] is the string ["false"], letter for letter. *)
Theorem write_access_off_iff (env : ProcessEnv) (prompt : string)
    (args : ToolArguments) :
  effective_writeAccess env (bridge_options prompt args) = false
  ↔ arg_writeAccess args = JBool false
    ∨ ((∀ b, arg_writeAccess args ≠ JBool b)
       ∧ env_COPILOT_WRITE_ACCESS env = Some "false").
Proof.
  unfold effective_writeAccess, bridge_options, DEFAULT_WRITE_ACCESS.
  cbn [opt_writeAccess].
  destruct (arg_writeAccess args) as [| |b|n|s|] eqn:Harg; cbn;
    try (destruct (env_COPILOT_WRITE_ACCESS env) as [w|]; cbn;
         [rewrite negb_false_iff, String.eqb_eq|]; naive_solver).
  destruct b; naive_solver.
Qed.

(** X13. The timeout given to [sendAndWait] is positive for every tool call
    if and only if [Number(COPILOT_TIMEOUT)] is positive or falsy (unset,
    not a number, zero): a negative [COPILOT_TIMEOUT] is taken as the
    default and reaches [sendAndWait] when the request names no valid
    timeout. *)
Theorem timeout_positive_iff (env : ProcessEnv) (prompt : string) :
  (∀ args, num_positive (effective_timeout env (bridge_options prompt args)) = true)
  ↔ (num_truthy (env_COPILOT_TIMEOUT_number env) = true
     → num_positive (env_COPILOT_TIMEOUT_number env) = true).
Proof.
  assert (Hdefault :
    (num_truthy (env_COPILOT_TIMEOUT_number env) = true
     → num_positive (env_COPILOT_TIMEOUT_number env) = true)
    ↔ num_positive (DEFAULT_TIMEOUT env) = true).
  { unfold DEFAULT_TIMEOUT.
    destruct (num_truthy (env_COPILOT_TIMEOUT_number env)); [naive_solver|].
    split; [intros _; reflexivity | intros _ H; discriminate H]. }
  rewrite Hdefault. split.
  - intros H. exact (H no_arguments).
  - intros H args. unfold effective_timeout, bridge_options. cbn [opt_timeout].
    destruct (arg_timeout args) as [| |b|n|s|]; cbn; try exact H.
    destruct (num_positive n) eqn:Hn; cbn; [exact Hn | exact H].
Qed.

Lemma append_empty (s : string) : s +:+ "" = s.
Proof.
  induction s as [|a s IH]; [done|].
  change (String a (s +:+ "") = String a s). by rewrite IH.
Qed.

(** Once the session is created, [runBridge] calls [sendAndWait] once, with
    the full prompt and the timeout in force. *)
Lemma runBridge_sends_once (env : ProcessEnv) (client : Client)
    (options : BridgeOptions) (session : Session) :
  createSession client (sessionConfig env options) = Returned session →
  sent_calls (run_M (runBridge env (Returned client) options)).1
    = [(fullPrompt options, effective_timeout env options)].
Proof.
  intros Hcreated. unfold_bridge. rewrite Hcreated. cbn.
  destruct (sendAndWait session (fullPrompt options)
              (effective_timeout env options)) as [starts [response|e]]; cbn.
  - destruct (content_truthy (response_content response)); cbn.
    + by destruct (destroy session).
    + destruct (getMessages session) as [messages|e]; cbn.
      * destruct (last _) as [lastMsg|]; [destruct (is_assistant_message lastMsg)|];
          by destruct (destroy session).
      * by destruct (destroy session).
  - by destruct (destroy session).
Qed.

(** X14. What a tool call sends to its session: one [sendAndWait], whose
    text is the prompt, followed - when the request's context is a non-empty
    string - by an empty line, the line [--- Additional Context ---] and the
    context; for a context that is missing, empty or not a string the text is
    the prompt alone. *)
Theorem fullPrompt_extends_prompt (env : ProcessEnv) (client : Client)
    (args : ToolArguments) (prompt : string) (session : Session) :
  arg_prompt args = JStr prompt →
  prompt ≠ "" →
  createSession client (sessionConfig env (bridge_options prompt args))
    = Returned session →
  (sent_calls (handle_call_tool env (Returned client) (call_tool args)).1).*1
  = [prompt +:+ match arg_context args with
                | JStr (String a context) =>
                    nl +:+ nl +:+ "--- Additional Context ---" +:+ nl
                    +:+ String a context
                | _ => ""
                end].
Proof.
  intros Hprompt Hne Hcreated.
  assert (Htruthy : str_truthy prompt = true) by (by destruct prompt).
  rewrite (handle_call_tool_runs_bridge env _ args prompt Hprompt Htruthy).
  rewrite (runBridge_sends_once env client _ session Hcreated).
  cbn [fmap list_fmap fst]. f_equal.
  unfold fullPrompt, bridge_options. cbn [opt_context opt_prompt].
  destruct (arg_context args) as [| |b|n|[|a context]|]; cbn [string_or_undefined str_truthy];
    by rewrite ?append_empty.
Qed.

Lemma fullPrompt_extends_prompt_witness :
  (sent_calls
     (handle_call_tool default_env (Returned (client_of scenario_D_session))
        (call_tool (prompt_with_context "review" (JStr "fn main() {}")))).1).*1
  = ["review" +:+ nl +:+ nl +:+ "--- Additional Context ---" +:+ nl
     +:+ "fn main() {}"]
  ∧ (sent_calls
       (handle_call_tool default_env (Returned (client_of scenario_D_session))
          (call_tool (prompt_with_context "review" (JNum (Finite 7))))).1).*1
    = ["review"].
Proof.
  assert (Hprompt : "review" ≠ "") by discriminate.
  split.
  - exact (fullPrompt_extends_prompt default_env (client_of scenario_D_session)
             (prompt_with_context "review" (JStr "fn main() {}")) "review"
             scenario_D_session eq_refl Hprompt eq_refl).
  - exact (fullPrompt_extends_prompt default_env (client_of scenario_D_session)
             (prompt_with_context "review" (JNum (Finite 7))) "review"
             scenario_D_session eq_refl Hprompt eq_refl).
Defined.

(** X15. Every error result of the handler, when [getClient] succeeds, has
    one of three texts: the unknown-tool message, the prompt-required
    message, or ["Error: Copilot-Gemini bridge failed: "] followed by a
    cause.  A result that is no error is the text [runBridge] returned. *)
Theorem handler_result_forms (env : ProcessEnv) (client : Client)
    (request : CallToolRequest) :
  let result := (handle_call_tool env (Returned client) request).2 in
  (isError result = false
   ∧ ∃ prompt,
       (run_M (runBridge env (Returned client)
                 (bridge_options prompt
                    (default no_arguments (params_arguments request))))).2
       = Returned (result_text result))
  ∨ (isError result = true
     ∧ (result_text result = "Unknown tool: " +:+ params_name request
        ∨ result_text result = PROMPT_REQUIRED
        ∨ ∃ cause, result_text result
                   = "Error: Copilot-Gemini bridge failed: " +:+ cause)).
Proof.
  cbn zeta.
  destruct (handle_call_tool_cases env (Returned client) request)
    as [[Hname Hres]|[(Hname & Hprompt & Hres)|(Hname & prompt & Hp & Hne & Hres)]];
    rewrite Hres.
  - right. split; [done|]. by left.
  - right. split; [done|]. right. by left.
  - pose proof (runBridge_error_wrapped env client
      (bridge_options prompt (default no_arguments (params_arguments request))))
      as Hwrapped.
    destruct (run_M _) as [trace [text|error]] eqn:Hrun; cbn in *.
    + left. split; [done|]. exists prompt. by rewrite Hrun.
    + right. split; [done|]. right. right.
      destruct (Hwrapped error eq_refl) as [cause ->]. by exists cause.
Qed.

(** X16. The Gemini model the system message tells the orchestrator to pass
    is the request's when that is one of the seven listed models, and the
    configured default in every other case: a model outside the list never
    reaches the system message through a request. *)
Theorem gemini_model_validated (env : ProcessEnv) (prompt : string)
    (args : ToolArguments) :
  let config := sessionConfig env (bridge_options prompt args) in
  (∃ s, arg_geminiModel args = JStr s ∧ s ∈ VALID_GEMINI_MODELS
        ∧ cfg_systemMessage_content config = buildSystemMessage s)
  ∨ ((∀ s, arg_geminiModel args = JStr s → s ∉ VALID_GEMINI_MODELS)
     ∧ cfg_systemMessage_content config
       = buildSystemMessage (DEFAULT_GEMINI_MODEL env)).
Proof.
  cbn zeta. unfold sessionConfig, effective_geminiModel, bridge_options.
  cbn [cfg_systemMessage_content opt_geminiModel]. unfold validate_geminiModel.
  destruct (arg_geminiModel args) as [| |b|n|s|] eqn:Harg;
    try (right; split; [intros s Hs; discriminate Hs | reflexivity]).
  destruct (includes VALID_GEMINI_MODELS s) eqn:Hs.
  - left. exists s. split; [done|]. split; [by apply includes_elem_of|].
    destruct s; [discriminate Hs | reflexivity].
  - right. split.
    + intros s' [= <-] Hin. apply includes_elem_of in Hin. congruence.
    + by rewrite andb_false_r.
Qed.

(** ** More on the init lock: every schedule, and [shutdownClient] *)

Lemma lock_invariant_uninitialized : lock_invariant uninitialized.
Proof. repeat split; cbn; intros *; by rewrite ?lookup_nil, ?lookup_empty. Qed.

Section LockStep.
Variable rt : Runtime.
Hypothesis Hcount : start_calls rt = length (promises rt).
Hypothesis Hpending : ∀ p, promises rt !! p = Some Pending →
  clientInitPromise rt = Some p ∧ singletonClient rt = None.
Hypothesis Hfulfilled : ∀ p c, promises rt !! p = Some (Fulfilled c) →
  c = p ∧ singletonClient rt = Some p.
Hypothesis Hsingle : ∀ c, singletonClient rt = Some c →
  promises rt !! c = Some (Fulfilled c).
Hypothesis Hinit : ∀ p, clientInitPromise rt = Some p → (p < length (promises rt))%nat.
Hypothesis Htry : ∀ i p, callers rt !! i = Some (AwaitingInTry p) →
  clientInitPromise rt = Some p.
Hypothesis Hone : ∀ i j p q, callers rt !! i = Some (AwaitingInTry p) →
  callers rt !! j = Some (AwaitingInTry q) → i = j.
Hypothesis Hjoined : ∀ i p, callers rt !! i = Some (AwaitingReturned p) →
  (p < length (promises rt))%nat.
Hypothesis Hdone : ∀ i c, callers rt !! i = Some (Finished (Returned c)) →
  singletonClient rt = Some c.

Ltac forward :=
  repeat match goal with
  | H : promises rt !! ?q = Some Pending |- _ =>
      pose proof (lookup_lt_Some _ _ _ H); pose proof (Hpending q H) as [? ?];
      change (id (promises rt) !! q = Some Pending) in H
  | H : promises rt !! ?q = Some (Fulfilled ?c) |- _ =>
      pose proof (lookup_lt_Some _ _ _ H); pose proof (Hfulfilled q c H) as [? ?];
      change (id (promises rt) !! q = Some (Fulfilled c)) in H
  | H : callers rt !! ?i = Some (AwaitingInTry ?p) |- _ =>
      pose proof (Htry i p H);
      change (id (callers rt) !! i = Some (AwaitingInTry p)) in H
  | H : callers rt !! ?i = Some (AwaitingReturned ?p) |- _ =>
      apply Hjoined in H
  | H : callers rt !! ?i = Some (Finished (Returned ?c)) |- _ =>
      apply Hdone in H
  end;
  unfold id in *.

Ltac lock_goal :=
  cbn; intros *;
  rewrite ?lookup_insert_Some, ?lookup_snoc_Some, ?list_lookup_insert_Some,
    ?length_app, ?length_insert; cbn;
  intros; destruct_or?; destruct_and?; simplify_eq;
  try match goal with
  | H1 : callers rt !! ?i = Some (AwaitingInTry _),
    H2 : callers rt !! ?j = Some (AwaitingInTry _) |- _ =>
      pose proof (Hone _ _ _ _ H1 H2)
  end;
  forward; simplify_eq;
  try done; try lia; try congruence; eauto.

Lemma lock_step_call (i : nat) (rt' : Runtime) :
  getClient_call i rt = Some rt' → lock_invariant rt'.
Proof.
  intros Hstep. unfold getClient_call in Hstep.
  destruct (callers rt !! i) eqn:Hi; [discriminate Hstep|].
  destruct (singletonClient rt) as [c|] eqn:Hs;
    [|destruct (clientInitPromise rt) as [p|] eqn:Hc];
    injection Hstep as <-; unfold lock_invariant, set_caller.
  + split_and!; lock_goal.
  + split_and!; lock_goal.
  + split_and!; lock_goal.
Qed.

Lemma lock_step_settle (p : nat) (o : Outcome unit) (rt' : Runtime) :
  start_settles p o rt = Some rt' → lock_invariant rt'.
Proof.
  intros Hstep.
  unfold start_settles in Hstep.
  destruct (promises rt !! p) as [[| |]|] eqn:Hp; try discriminate Hstep.
  destruct (Hpending p Hp) as [Hc Hs].
  destruct o as [[]|error]; injection Hstep as <-; unfold lock_invariant.
  + split_and!; lock_goal.
  + split_and!; lock_goal.
Qed.

Lemma lock_step_resume (i : nat) (rt' : Runtime) :
  getClient_resume i rt = Some rt' → lock_invariant rt'.
Proof.
  intros Hstep.
  unfold getClient_resume in Hstep.
  destruct (callers rt !! i) as [[p|p|o]|] eqn:Hi; try discriminate Hstep;
    destruct (promises rt !! p) as [[|c|error]|] eqn:Hp; try discriminate Hstep;
    injection Hstep as <-; unfold lock_invariant, set_caller.
  + split_and!; lock_goal.
  + split_and!; lock_goal.
  + split_and!; lock_goal.
  + split_and!; lock_goal.
Qed.
End LockStep.

Lemma lock_invariant_step (rt rt' : Runtime) (a : Action) :
  lock_invariant rt → step rt a = Some rt' → lock_invariant rt'.
Proof.
  intros (Hcount & Hpending & Hfulfilled & Hsingle & Hinit & Htry & Hone
          & Hjoined & Hdone) Hstep.
  destruct a as [i|p o|i]; cbn in Hstep.
  - by eapply (lock_step_call rt).
  - by eapply (lock_step_settle rt).
  - by eapply (lock_step_resume rt).
Qed.

Lemma lock_invariant_run (schedule : list Action) :
  ∀ rt rt', lock_invariant rt → run rt schedule = Some rt' → lock_invariant rt'.
Proof.
  induction schedule as [|a schedule IH]; intros rt rt' Hinv Hrun; cbn in Hrun.
  - by injection Hrun as <-.
  - destruct (step rt a) as [rt1|] eqn:Hstep; [|discriminate Hrun].
    eapply IH; [|exact Hrun]. by eapply lock_invariant_step.
Qed.

(** X17. Whatever the order of calls, ends of [start] and continuations:
    at most one attempt is pending at any time; a pending attempt is the one
    [clientInitPromise] holds, so every caller that arrives joins it; and
    [start] has been called once for each attempt, never more. *)
Theorem at_most_one_start_in_flight (schedule : list Action) (rt : Runtime) :
  run uninitialized schedule = Some rt →
  start_calls rt = length (promises rt)
  ∧ (∀ p, promises rt !! p = Some Pending →
       clientInitPromise rt = Some p ∧ singletonClient rt = None)
  ∧ (∀ p q, promises rt !! p = Some Pending →
       promises rt !! q = Some Pending → p = q).
Proof.
  intros Hrun.
  destruct (lock_invariant_run schedule _ _ lock_invariant_uninitialized Hrun)
    as (Hcount & Hpending & _).
  split; [done|]. split; [done|].
  intros p q Hp Hq.
  destruct (Hpending p Hp) as [Hcp _]. destruct (Hpending q Hq) as [Hcq _].
  congruence.
Qed.

Lemma at_most_one_start_in_flight_witness :
  ∃ rt, run uninitialized [Call 0; Call 1; Settle 0 start_failure; Resume 0;
                           Call 2; Call 3]%nat = Some rt
        ∧ start_calls rt = 2%nat
        ∧ (∀ p q, promises rt !! p = Some Pending →
             promises rt !! q = Some Pending → p = q).
Proof.
  eexists. split; [reflexivity|].
  destruct (at_most_one_start_in_flight
              [Call 0; Call 1; Settle 0 start_failure; Resume 0; Call 2; Call 3]%nat
              _ eq_refl) as (Hcount & _ & Hone).
  split; [exact Hcount | exact Hone].
Defined.

(** X18. Whatever the schedule, all callers that have got a client have got
    the same one, and it is [singletonClient]: no schedule of [getClient]
    calls hands out two clients, also not across failed attempts. *)
Theorem callers_share_one_client (schedule : list Action) (rt : Runtime)
    (i j ci cj : nat) :
  run uninitialized schedule = Some rt →
  callers rt !! i = Some (Finished (Returned ci)) →
  callers rt !! j = Some (Finished (Returned cj)) →
  ci = cj ∧ singletonClient rt = Some ci.
Proof.
  intros Hrun Hi Hj.
  destruct (lock_invariant_run schedule _ _ lock_invariant_uninitialized Hrun)
    as (_ & _ & _ & _ & _ & _ & _ & _ & Hdone).
  pose proof (Hdone i ci Hi) as Hci. pose proof (Hdone j cj Hj) as Hcj.
  split; [congruence | done].
Qed.

Lemma callers_share_one_client_witness :
  ∃ rt, run uninitialized retry_schedule = Some rt
        ∧ callers rt !! 2%nat = Some (Finished (Returned 1%nat))
        ∧ callers rt !! 4%nat = Some (Finished (Returned 1%nat))
        ∧ singletonClient rt = Some 1%nat.
Proof.
  eexists. split; [reflexivity|]. split; [reflexivity|]. split; [reflexivity|].
  exact (proj2 (callers_share_one_client retry_schedule _ 2 4 1 1
                  eq_refl eq_refl eq_refl)).
Defined.

(** X19. Once a client is there, [getClient] never starts another: after
    any further schedule [start_calls] and [singletonClient] are what they
    were. *)
Theorem no_restart_after_success (before after : list Action)
    (rt rt' : Runtime) (c : nat) :
  run uninitialized before = Some rt →
  singletonClient rt = Some c →
  run rt after = Some rt' →
  start_calls rt' = start_calls rt ∧ singletonClient rt' = Some c.
Proof.
  intros Hbefore.
  pose proof (lock_invariant_run before _ _ lock_invariant_uninitialized Hbefore)
    as Hinv. clear Hbefore.
  revert rt Hinv. induction after as [|a after IH]; intros rt Hinv Hs Hrun;
    cbn in Hrun.
  - by injection Hrun as <-.
  - destruct (step rt a) as [rt1|] eqn:Hstep; [|discriminate Hrun].
    pose proof (lock_invariant_step rt rt1 a Hinv Hstep) as Hinv1.
    assert (Hsame : start_calls rt1 = start_calls rt ∧ singletonClient rt1 = Some c).
    { destruct Hinv as (_ & Hpending & _).
      destruct a as [i|p o|i]; cbn in Hstep.
      - unfold getClient_call in Hstep. rewrite Hs in Hstep.
        destruct (callers rt !! i); [discriminate Hstep|].
        by injection Hstep as <-.
      - unfold start_settles in Hstep.
        destruct (promises rt !! p) as [[| |]|] eqn:Hp; try discriminate Hstep.
        destruct (Hpending p Hp) as [_ Hnone]. congruence.
      - unfold getClient_resume in Hstep.
        destruct (callers rt !! i) as [[p|p|o]|]; try discriminate Hstep;
          destruct (promises rt !! p) as [[| |]|]; try discriminate Hstep;
          by injection Hstep as <-. }
    destruct Hsame as [Hcount Hs1].
    destruct (IH rt1 Hinv1 Hs1 Hrun) as [Hcount' Hs']. split; [congruence | done].
Qed.

Lemma no_restart_after_success_witness :
  ∃ rt rt',
    run uninitialized [Call 0; Settle 0 (Returned tt); Resume 0]%nat = Some rt
    ∧ run rt [Call 1; Call 2]%nat = Some rt'
    ∧ start_calls rt' = 1%nat
    ∧ singletonClient rt' = Some 0%nat.
Proof.
  eexists _, _. split; [reflexivity|]. split; [reflexivity|].
  exact (no_restart_after_success
           [Call 0; Settle 0 (Returned tt); Resume 0]%nat [Call 1; Call 2]%nat
           _ _ 0 eq_refl eq_refl eq_refl).
Defined.

(** X20. [shutdownClient] never throws.  Without a client it calls nothing
    and changes nothing; with one it clears [singletonClient] and
    [clientInitPromise], calls [stop], and calls [forceStop] exactly when
    [stop] has thrown - whatever [forceStop] does then is swallowed. *)
Theorem shutdownClient_never_throws (stop forceStop : Outcome unit) (rt : Runtime) :
  let after := shutdownClient stop forceStop rt in
  after.2.2 = Returned tt
  ∧ singletonClient after.1 = None
  ∧ match singletonClient rt with
    | None => after.1 = rt ∧ after.2.1 = []
    | Some client =>
        clientInitPromise after.1 = None
        ∧ after.2.1 = CallStop client ::
                      match stop with
                      | Returned _ => []
                      | Threw _ => [CallForceStop client]
                      end
    end.
Proof.
  cbn zeta. unfold shutdownClient.
  destruct (singletonClient rt) as [client|] eqn:Hs; cbn.
  - destruct stop as [[]|e]; cbn; [done|].
    by destruct forceStop as [[]|e'].
  - by rewrite Hs.
Qed.

(** X21. After a shutdown the next [getClient] call starts from scratch:
    it makes a new client and calls [start] again. *)
Theorem getClient_after_shutdown_restarts (stop forceStop : Outcome unit)
    (rt : Runtime) (c j : nat) :
  singletonClient rt = Some c →
  callers rt !! j = None →
  ∃ rt', getClient_call j (shutdownClient stop forceStop rt).1 = Some rt'
         ∧ start_calls rt' = S (start_calls rt)
         ∧ singletonClient rt' = None
         ∧ clientInitPromise rt' = Some (length (promises rt))
         ∧ promises rt' !! length (promises rt) = Some Pending
         ∧ callers rt' !! j = Some (AwaitingInTry (length (promises rt))).
Proof.
  intros Hs Hj. unfold shutdownClient. rewrite Hs. cbn [fst].
  unfold getClient_call. cbn. rewrite Hj.
  eexists. split; [reflexivity|]. cbn. split_and!; try done.
  - by rewrite lookup_app_r, Nat.sub_diag.
  - by rewrite lookup_insert_eq.
Qed.

Lemma getClient_after_shutdown_restarts_witness :
  ∃ rt rt',
    run uninitialized [Call 0; Settle 0 (Returned tt); Resume 0]%nat = Some rt
    ∧ getClient_call 1 (shutdownClient (Returned tt) (Returned tt) rt).1 = Some rt'
    ∧ start_calls rt' = 2%nat
    ∧ callers rt' !! 1%nat = Some (AwaitingInTry 1).
Proof.
  destruct (run uninitialized [Call 0; Settle 0 (Returned tt); Resume 0]%nat)
    as [rt|] eqn:Hrun; [|discriminate Hrun].
  injection Hrun as Hrt.
  assert (Hs : singletonClient rt = Some 0%nat) by (by rewrite <- Hrt).
  assert (Hj : callers rt !! 1%nat = None) by (rewrite <- Hrt; vm_compute; reflexivity).
  destruct (getClient_after_shutdown_restarts (Returned tt) (Returned tt)
              rt 0 1 Hs Hj) as (rt' & Hcall & Hcount & _ & _ & _ & Hcaller).
  exists rt, rt'. split; [reflexivity|]. split; [exact Hcall|].
  rewrite <- Hrt in Hcount, Hcaller. split; [exact Hcount | exact Hcaller].
Defined.

(** X22. A shutdown that comes while [start] is still pending stops
    nothing: there is no [singletonClient] yet, so the function returns at
    once and leaves [clientInitPromise] in place; when [start] then
    succeeds, its client becomes [singletonClient] all the same. *)
Theorem shutdown_during_start_stops_nothing (schedule : list Action)
    (rt : Runtime) (p : nat) (stop forceStop : Outcome unit) :
  run uninitialized schedule = Some rt →
  promises rt !! p = Some Pending →
  shutdownClient stop forceStop rt = (rt, ([], Returned tt))
  ∧ clientInitPromise rt = Some p
  ∧ ∃ rt', start_settles p (Returned tt) (shutdownClient stop forceStop rt).1
             = Some rt'
           ∧ singletonClient rt' = Some p.
Proof.
  intros Hrun Hp.
  destruct (lock_invariant_run schedule _ _ lock_invariant_uninitialized Hrun)
    as (_ & Hpending & _).
  destruct (Hpending p Hp) as [Hc Hs].
  assert (Hnoop : shutdownClient stop forceStop rt = (rt, ([], Returned tt))).
  { unfold shutdownClient. by rewrite Hs. }
  split; [done|]. split; [done|].
  rewrite Hnoop. cbn [fst]. unfold start_settles. rewrite Hp.
  by eexists.
Qed.

Lemma shutdown_during_start_stops_nothing_witness :
  ∃ rt rt',
    run uninitialized [Call 0; Call 1]%nat = Some rt
    ∧ shutdownClient (Returned tt) (Returned tt) rt = (rt, ([], Returned tt))
    ∧ start_settles 0 (Returned tt)
        (shutdownClient (Returned tt) (Returned tt) rt).1 = Some rt'
    ∧ singletonClient rt' = Some 0%nat.
Proof.
  eexists _.
  destruct (shutdown_during_start_stops_nothing [Call 0; Call 1]%nat _ 0
              (Returned tt) (Returned tt) eq_refl eq_refl)
    as (Hnoop & _ & rt' & Hsettle & Hs).
  exists rt'. split; [reflexivity|]. split; [exact Hnoop|].
  split; [exact Hsettle | exact Hs].
Defined.
